(** * TonyOS backend: scoring engine and task service

    A shallow embedding of [src/index.js].  The file holds three successive
    revisions of the backend, separated by document markers:

    - lines 1-332: the per-user SQLite revision (no scoring engine): its
      [ORDER BY] bucket ranking ([Sqlite.bucket_rank]) and its task routes
      ([Module SqliteService]);
    - lines 333-793: the Postgres revision that computes the scores once, on
      insert, and persists them ([Module Persisted]);
    - lines 795-1258: the Postgres revision that re-scores every row it
      returns ([Module Rescore]).

    JavaScript values are modelled on the primitives that JSON bodies and
    the [pg] driver deliver (undefined, null, booleans, numbers, strings)
    plus [Date] objects.  Numbers are the integers together with NaN: the
    priority and score columns are INTEGER and the draft schema asks for
    integers.  A request body that carries a fractional number lies outside
    the model, and a statement about numbers is one about integers and NaN.
    Strings are ASCII text ([string] of the standard library). *)

From Stdlib Require Import ZArith QArith Lia Permutation Sorted Ascii String.
From stdpp Require Import base option list strings pretty gmap.

Local Open Scope string_scope.
Local Open Scope Z_scope.

(** ** JavaScript values *)

Module JS.

Inductive num := NaN | Int (z : Z).

Inductive JsVal :=
  | JUndefined
  | JNull
  | JBool (b : bool)
  | JNum (n : num)
  | JStr (s : string)
  | JDate (tv : option Z).   (* a Date object; [None] is the invalid date *)

#[global] Instance num_eq_dec : EqDecision num.
Proof. solve_decision. Defined.
#[global] Instance JsVal_eq_dec : EqDecision JsVal.
Proof. solve_decision. Defined.

(** ToBoolean *)
Definition truthy (v : JsVal) : bool :=
  match v with
  | JUndefined | JNull => false
  | JBool b => b
  | JNum NaN => false
  | JNum (Int z) => negb (z =? 0)
  | JStr s => negb (String.eqb s "")
  | JDate _ => true
  end.

(** [a || b] *)
Definition js_or (a b : JsVal) : JsVal := if truthy a then a else b.

(** [typeof v === "number"], [typeof v === "string"] *)
Definition is_number (v : JsVal) : bool :=
  match v with JNum _ => true | _ => false end.
Definition is_string (v : JsVal) : bool :=
  match v with JStr _ => true | _ => false end.

(** [v === "lit"] for a string literal *)
Definition strict_eq_str (v : JsVal) (lit : string) : bool :=
  match v with JStr s => String.eqb s lit | _ => false end.

(** Property read [o.k]: a missing key reads as undefined. *)
Definition get (o : gmap string JsVal) (k : string) : JsVal :=
  default JUndefined (o !! k).

(** Destructuring with a default, [{ k = d } = o]: the default applies
    only when the property is undefined. *)
Definition get_default (o : gmap string JsVal) (k : string) (d : JsVal) : JsVal :=
  match get o k with JUndefined => d | v => v end.

(** *** Numbers *)

Definition num_truthy (n : num) : bool := truthy (JNum n).

(** [n || d] on numbers *)
Definition num_or (n d : num) : num := if num_truthy n then n else d.

Definition Math_max (a b : num) : num :=
  match a, b with Int x, Int y => Int (Z.max x y) | _, _ => NaN end.
Definition Math_min (a b : num) : num :=
  match a, b with Int x, Int y => Int (Z.min x y) | _, _ => NaN end.
Definition num_add (a b : num) : num :=
  match a, b with Int x, Int y => Int (x + y) | _, _ => NaN end.
Definition num_sub (a b : num) : num :=
  match a, b with Int x, Int y => Int (x - y) | _, _ => NaN end.

(** [a >= k] and [a === k]; every comparison with NaN is false. *)
Definition num_geb (a : num) (k : Z) : bool :=
  match a with Int x => k <=? x | NaN => false end.
Definition num_eqb (a : num) (k : Z) : bool :=
  match a with Int x => x =? k | NaN => false end.

(** *** Strings *)

Definition lower_ascii (c : ascii) : ascii :=
  let n := N_of_ascii c in
  if ((65 <=? n) && (n <=? 90))%N then ascii_of_N (n + 32) else c.

Fixpoint toLowerCase (s : string) : string :=
  match s with
  | EmptyString => EmptyString
  | String c r => String (lower_ascii c) (toLowerCase r)
  end.

(** [s.includes(sub)] *)
Fixpoint includes (s sub : string) : bool :=
  String.prefix sub s ||
  match s with
  | EmptyString => false
  | String _ r => includes r sub
  end.

(** White space of StrWhiteSpaceChar within ASCII: TAB, LF, VT, FF, CR, SP. *)
Definition is_space (c : ascii) : bool :=
  let n := N_of_ascii c in
  (((9 <=? n) && (n <=? 13)) || (n =? 32))%N.

Fixpoint trimStart (s : string) : string :=
  match s with
  | String c r => if is_space c then trimStart r else s
  | EmptyString => EmptyString
  end.

Fixpoint trimEnd (s : string) : string :=
  match s with
  | String c r =>
      match trimEnd r with
      | EmptyString => if is_space c then EmptyString else String c EmptyString
      | r' => String c r'
      end
  | EmptyString => EmptyString
  end.

Definition trim (s : string) : string := trimEnd (trimStart s).

Definition digit_of (c : ascii) : option Z :=
  let n := N_of_ascii c in
  if ((48 <=? n) && (n <=? 57))%N then Some (Z.of_N n - 48) else None.

Fixpoint read_digits (s : string) (acc : option Z) : option Z :=
  match s with
  | String c r =>
      match digit_of c with
      | Some d => read_digits r (Some (10 * default 0 acc + d))
      | None => acc
      end
  | EmptyString => acc
  end.

(** [parseInt(s, 10)] on a string: leading white space, an optional sign,
    then the longest run of decimal digits; NaN when there is none. *)
Definition parseInt10 (s : string) : num :=
  let s := trimStart s in
  let '(neg, ds) :=
    match s with
    | String "-" r => (true, r)
    | String "+" r => (false, r)
    | _ => (false, s)
    end in
  match read_digits ds None with
  | None => NaN
  | Some v => Int (if neg then - v else v)
  end.

(** *** Dates *)

Definition TimeClip (z : Z) : option Z :=
  if Z.abs z <=? 8640000000000000 then Some z else None.

(** What the engine supplies and this development does not define: the
    parsing and printing of dates, the printing of numbers and the reading
    of a string as a number. *)
Class Engine := {
  Date_parse : string -> option Z;     (* milliseconds since the epoch *)
  Date_toString : option Z -> string;
  Number_toString : num -> string;
  StringToNumber : string -> num
}.

(** [new Date(v).getTime()]; [None] is NaN. *)
Definition new_Date `{Engine} (v : JsVal) : option Z :=
  match v with
  | JDate tv => tv
  | JStr s => Date_parse s
  | JNum NaN => None
  | JNum (Int z) => TimeClip z
  | JBool b => Some (if b then 1 else 0)
  | JNull => Some 0
  | JUndefined => None
  end.

(** [String(v)] *)
Definition ToString `{Engine} (v : JsVal) : string :=
  match v with
  | JStr s => s
  | JNum n => Number_toString n
  | JBool b => if b then "true" else "false"
  | JNull => "null"
  | JUndefined => "undefined"
  | JDate tv => Date_toString tv
  end.

(** [Number(v)] *)
Definition ToNumber `{Engine} (v : JsVal) : num :=
  match v with
  | JNum n => n
  | JStr s => StringToNumber s
  | JBool b => Int (if b then 1 else 0)
  | JNull => Int 0
  | JUndefined => NaN
  | JDate tv => match tv with Some ms => Int ms | None => NaN end
  end.

Definition Number_isFinite (n : num) : bool :=
  match n with Int _ => true | NaN => false end.

(** [parseInt(v, 10)]: the argument is first rendered as a string. *)
Definition parseInt `{Engine} (v : JsVal) : num := parseInt10 (ToString v).

(** [(v).toLowerCase()]: only strings have the method; on anything else
    the call throws a TypeError ([None]). *)
Definition call_toLowerCase (v : JsVal) : option string :=
  match v with JStr s => Some (toLowerCase s) | _ => None end.

(** Hours between two instants, [(d - now) / (1000 * 60 * 60)]. *)
Definition diffHours (d now : Z) : Q := (d - now) # 3600000.

Definition Qltb (a b : Q) : bool := negb (Qle_bool b a).

End JS.
Export JS.

Abbreviation obj := (gmap string JsVal).

(** The object [{ L, U, R, F, score }] that both scoring functions return. *)
Module Metrics.
Record t := mk { L : num; U : num; R : num; F : num; score : num }.

Definition to_obj (m : t) : obj :=
  <["L" := JNum (L m)]> (<["U" := JNum (U m)]> (<["R" := JNum (R m)]>
    (<["F" := JNum (F m)]> (<["score" := JNum (score m)]> ∅)))).
End Metrics.

(** ** The scoring engine of the persisting revision (lines 421-478) *)

Module Persisted.
Section Scoring.
Context `{Engine}.

(** [urgencyScore(task)], lines 423-441; [now] is the clock reading of
    [new Date()]. *)
Definition urgencyScore (now : Z) (task : obj) : Z :=
  let due := get task "due_date" in
  let bucket := get task "bucket" in
  if negb (truthy due) then
    if strict_eq_str bucket "today" then 3
    else if strict_eq_str bucket "this_week" then 2
    else 1
  else
    match new_Date due with
    | None => 1
    | Some d =>
        let diffHours := diffHours d now in
        if Qltb diffHours 0 then 5
        else if Qle_bool diffHours 24 then 4
        else if Qle_bool diffHours 72 then 3
        else if Qle_bool diffHours (24 * 7) then 2
        else 1
    end.

(** [leverageScore(task)], lines 443-450 *)
Definition leverageScore (task : obj) : num :=
  let p :=
    match get task "priority" with
    | JNum n => n
    | v => parseInt (js_or v (JStr "3"))
    end in
  let clamped := Math_min (Math_max (num_or p (Int 3)) (Int 1)) (Int 5) in
  num_sub (Int 6) clamped.

(** [riskScore(task)], lines 452-457; it reads the clock itself. *)
Definition riskScore (now : Z) (task : obj) : Z :=
  let u := urgencyScore now task in
  if 4 <=? u then 4
  else if u =? 3 then 3
  else 2.

(** [frictionScore(task)], lines 459-470; [None] is the TypeError of
    calling [toLowerCase] on a description that is not a string. *)
Definition frictionScore (task : obj) : option Z :=
  desc ← call_toLowerCase (js_or (get task "description") (JStr ""));
  Some (if negb (truthy (JStr desc)) then 2
        else if includes desc "tax" || includes desc "accounting"
                || includes desc "legal" then 3
        else if includes desc "call" || includes desc "email" then 1
        else 2).

(** [computeScores(task)], lines 472-478.  The clock is read twice, once
    by [urgencyScore] and once more inside [riskScore]. *)
Definition computeScores (nowU nowR : Z) (task : obj) : option Metrics.t :=
  let L := leverageScore task in
  let U := Int (urgencyScore nowU task) in
  let R := Int (riskScore nowR task) in
  F ← frictionScore task;
  Some (Metrics.mk L U R (Int F)
          (num_sub (num_add (num_add L U) R) (Int F))).

End Scoring.
End Persisted.

(** ** The scoring engine of the re-scoring revision (lines 871-936) *)

Module Rescore.
Section Scoring.
Context `{Engine}.

(** The inner functions of [computeTonyScore(t)] close over [t] and over
    [bucket = t.bucket || "later"]; here both are arguments. *)

(** lines 875-890 *)
Definition urgencyScore (now : Z) (t : obj) (bucket : JsVal) : Z :=
  if negb (truthy (get t "due_date")) then
    if strict_eq_str bucket "today" then 3
    else if strict_eq_str bucket "this_week" then 2
    else 1
  else
    match new_Date (get t "due_date") with
    | None => 1
    | Some d =>
        let diffHours := diffHours d now in
        if Qltb diffHours 0 then 5
        else if Qle_bool diffHours 24 then 4
        else if Qle_bool diffHours 72 then 3
        else if Qle_bool diffHours (24 * 7) then 2
        else 1
    end.

(** lines 892-897 *)
Definition leverageScore (t : obj) : num :=
  match get t "leverage_score" with
  | JNum n => n
  | _ =>
      let p := match get t "priority" with JNum n => n | _ => Int 3 end in
      let clamped := Math_min (Math_max p (Int 1)) (Int 5) in
      num_sub (Int 6) clamped
  end.

(** lines 899-905 *)
Definition riskScore (now : Z) (t : obj) (bucket : JsVal) : num :=
  match get t "risk_score" with
  | JNum n => n
  | _ =>
      let u := urgencyScore now t bucket in
      if 4 <=? u then Int 4
      else if u =? 3 then Int 3
      else Int 2
  end.

(** lines 907-919 *)
Definition frictionScore (t : obj) : option num :=
  match get t "friction_score" with
  | JNum n => Some n
  | _ =>
      desc ← call_toLowerCase (js_or (get t "description") (JStr ""));
      Some (if negb (truthy (JStr desc)) then Int 2
            else if includes desc "tax" || includes desc "accounting"
                    || includes desc "legal" then Int 3
            else if includes desc "call" || includes desc "email" then Int 1
            else Int 2)
  end.

(** [computeTonyScore(t)], lines 871-928 *)
Definition computeTonyScore (nowU nowR : Z) (t : obj) : option Metrics.t :=
  let bucket := js_or (get t "bucket") (JStr "later") in
  let L := leverageScore t in
  let U := Int (urgencyScore nowU t bucket) in
  let R := riskScore nowR t bucket in
  F ← frictionScore t;
  Some (Metrics.mk L U R F (num_sub (num_add (num_add L U) R) F)).

End Scoring.
End Rescore.

(** [withScores(rows)], lines 931-936: every row is re-scored and the
    metrics are spread over it, [{ ...t, ...metrics }].  [clk i] gives the
    two clock readings taken while the row at position [i] is scored.  The
    first row whose scoring throws makes the whole call throw. *)
Definition withScores `{Engine} (clk : nat -> Z * Z) (rows : list obj)
  : option (list obj) :=
  mapM (fun '(i, t) =>
          metrics ← Rescore.computeTonyScore (clk i).1 (clk i).2 t;
          Some (Metrics.to_obj metrics ∪ t))
       (imap (fun i t => (i, t)) rows).

(** ** The relational store

    One [tasks] table with the columns of the DDL (lines 393-410 and
    840-856).  The persisting revision's table has no [score] column. *)

Module Store.

Record row := mk_row {
  id : Z;
  title : string;
  description : option string;
  area : option string;
  status : string;
  bucket : string;
  priority : Z;
  leverage_score : option Z;
  urgency_score : option Z;
  risk_score : option Z;
  friction_score : option Z;
  score : option Z;
  due_date : option Z;          (* TIMESTAMPTZ, as milliseconds *)
  created_at : Z;
  updated_at : Z
}.

(** The table in heap order, and the SERIAL counter. *)
Record db := mk_db { rows : list row; next_id : Z }.

Definition nul_free (s : string) : bool := negb (includes s (String Ascii.zero "")).

(** What the store does with a query parameter that is not null: the
    driver prints it, the server reads the text at the column's type.
    [None] is a failed statement.  The two laws are the cases used below:
    text without a NUL byte is stored as it is, and so is a number within
    the INTEGER range. *)
Class Pg := {
  pg_text_in : JsVal -> option string;
  pg_int4_in : JsVal -> option Z;
  pg_timestamptz_in : JsVal -> option Z;
  pg_text_in_str : forall s, nul_free s = true -> pg_text_in (JStr s) = Some s;
  pg_int4_in_int : forall z, -2147483648 <= z <= 2147483647 ->
                             pg_int4_in (JNum (Int z)) = Some z
}.

Definition is_nullish (v : JsVal) : bool :=
  match v with JNull | JUndefined => true | _ => false end.

(** A parameter bound to a nullable column, and to a NOT NULL one. *)
Definition nullable {A} (conv : JsVal -> option A) (v : JsVal) : option (option A) :=
  if is_nullish v then Some None else Some <$> conv v.
Definition not_null {A} (conv : JsVal -> option A) (v : JsVal) : option A :=
  if is_nullish v then None else conv v.

(** The insertion itself: the new row takes the next id and the server's
    [NOW()] for both time stamps, and goes to the end of the heap. *)
Definition append (d : db) (mk : Z -> row) : db * row :=
  let r := mk (next_id d) in
  (mk_db (rows d ++ [r]) (next_id d + 1), r).

(** The JavaScript object the driver returns for a row. *)
Definition of_text (s : string) : JsVal := JStr s.
Definition of_opt_text (s : option string) : JsVal :=
  match s with Some s => JStr s | None => JNull end.
Definition of_int (z : Z) : JsVal := JNum (Int z).
Definition of_opt_int (z : option Z) : JsVal :=
  match z with Some z => JNum (Int z) | None => JNull end.
Definition of_time (ms : Z) : JsVal := JDate (Some ms).
Definition of_opt_time (ms : option Z) : JsVal :=
  match ms with Some ms => JDate (Some ms) | None => JNull end.

Definition columns (r : row) : list (string * JsVal) :=
  [ ("id", of_int (id r));
    ("title", of_text (title r));
    ("description", of_opt_text (description r));
    ("area", of_opt_text (area r));
    ("status", of_text (status r));
    ("bucket", of_text (bucket r));
    ("priority", of_int (priority r));
    ("leverage_score", of_opt_int (leverage_score r));
    ("urgency_score", of_opt_int (urgency_score r));
    ("risk_score", of_opt_int (risk_score r));
    ("friction_score", of_opt_int (friction_score r));
    ("due_date", of_opt_time (due_date r));
    ("created_at", of_time (created_at r));
    ("updated_at", of_time (updated_at r)) ].

(** [SELECT *] / [RETURNING *] on the table without the [score] column *)
Definition to_obj (r : row) : obj := list_to_map (columns r).

(** the explicit column list of the re-scoring revision, with [score] *)
Definition to_obj_scored (r : row) : obj :=
  <["score" := of_opt_int (score r)]> (to_obj r).

(** [ORDER BY]: a stable insertion sort of the heap under the comparison
    the clause denotes. *)
Fixpoint insert_by (cmp : row -> row -> comparison) (x : row) (l : list row) : list row :=
  match l with
  | [] => [x]
  | y :: rest =>
      match cmp x y with
      | Gt => y :: insert_by cmp x rest
      | _ => x :: l
      end
  end.

Definition order_by (cmp : row -> row -> comparison) (l : list row) : list row :=
  foldr (insert_by cmp) [] l.

(** Lexicographic combination of sort keys. *)
Definition thenc (c : comparison) (k : comparison) : comparison :=
  match c with Eq => k | _ => c end.

End Store.

(** ** HTTP responses *)

Inductive payload :=
  | PError (msg : string)
  | PTask (t : obj)
  | PTasks (ts : list obj).

Record response := mk_response { status_code : Z; body : payload }.

(** Clock readings taken while one task is inserted and scored. *)
Record ticks := mk_ticks { at_insert : Z; at_urgency : Z; at_risk : Z }.

(** What the text-generation collaborator gave back, after [JSON.parse]. *)
Inductive llm_reply :=
  | LlmThrows                       (* the call itself failed *)
  | LlmBadJson                      (* the content is not JSON *)
  | LlmDrafts (drafts : list obj).  (* the array of drafts; [] when the
                                       parsed value holds no array *)

(** ** The bucket ranking of the SQLite revision (lines 192-197) *)

Module Sqlite.
Definition bucket_rank (bucket : string) : Z :=
  if String.eqb bucket "today" then 1
  else if String.eqb bucket "this_week" then 2
  else if String.eqb bucket "later" then 3
  else 4.
End Sqlite.

(** ** The task service of the persisting revision (lines 494-714) *)

Module PersistedService.
Section Handlers.
Context `{Engine} `{Store.Pg}.
Import Store.

(** [GET /tasks], lines 497-506: [ORDER BY created_at ASC] *)
Definition list_order (a b : row) : comparison := created_at a ?= created_at b.

Definition get_tasks (d : db) : response :=
  mk_response 200 (PTasks (to_obj <$> order_by list_order (rows d))).

(** The INSERT of lines 527-535 and 683-691, scores included. *)
Definition insert_stmt (now : Z) (d : db)
    (title description area status bucket priority : JsVal)
    (scores : Metrics.t) (due_date : JsVal) : option (db * row) :=
  ti ← not_null pg_text_in title;
  de ← nullable pg_text_in description;
  ar ← nullable pg_text_in area;
  st ← not_null pg_text_in status;
  bu ← not_null pg_text_in bucket;
  pr ← not_null pg_int4_in priority;
  sl ← nullable pg_int4_in (JNum (Metrics.L scores));
  su ← nullable pg_int4_in (JNum (Metrics.U scores));
  sr ← nullable pg_int4_in (JNum (Metrics.R scores));
  sf ← nullable pg_int4_in (JNum (Metrics.F scores));
  du ← nullable pg_timestamptz_in due_date;
  Some (append d (fun i => mk_row i ti de ar st bu pr sl su sr sf None du now now)).

(** The object literal [{ title, description, bucket, priority, due_date }]
    handed to [computeScores]. *)
Definition snapshot (title description bucket priority due_date : JsVal) : obj :=
  list_to_map [ ("title", title); ("description", description);
                ("bucket", bucket); ("priority", priority);
                ("due_date", due_date) ].

(** [POST /tasks], lines 509-555 *)
Definition post_tasks (tk : ticks) (body : obj) (d : db) : db * response :=
  let title := get body "title" in
  let description := get_default body "description" JNull in
  let area := get_default body "area" JNull in
  let status := get_default body "status" (JStr "open") in
  let bucket := get_default body "bucket" (JStr "later") in
  let priority := get_default body "priority" (JNum (Int 3)) in
  let due_date := get_default body "due_date" JNull in
  if negb (truthy title) || negb (is_string title) then
    (d, mk_response 400 (PError "title is required"))
  else
    match Persisted.computeScores (at_urgency tk) (at_risk tk)
            (snapshot title description bucket priority due_date) with
    | None => (d, mk_response 500 (PError "Internal server error"))
    | Some scores =>
        match insert_stmt (at_insert tk) d title description area status
                bucket priority scores due_date with
        | None => (d, mk_response 500 (PError "Internal server error"))
        | Some (d', r) => (d', mk_response 201 (PTask (to_obj r)))
        end
    end.

(** Lines 664-665: the title of a draft, [String(t.title || "").trim()];
    the draft is skipped when it is empty. *)
Definition draft_title (t : obj) : string :=
  trim (ToString (js_or (get t "title") (JStr ""))).

(** Lines 667-707: the rest of the loop body for a draft that is kept. *)
Definition insert_draft (tk : ticks) (default_bucket default_area : JsVal)
    (t : obj) (d : db) : option (db * row) :=
  let title := JStr (draft_title t) in
  let description :=
    if truthy (get t "description")
    then JStr (ToString (get t "description")) else JNull in
  let area :=
    if truthy (get t "area")
    then JStr (ToString (get t "area")) else default_area in
  let bucket := js_or (get t "bucket") default_bucket in
  let priority :=
    if Number_isFinite (ToNumber (get t "priority"))
    then JNum (ToNumber (get t "priority")) else JNum (Int 3) in
  let due_date := js_or (get t "due_date") JNull in
  scores ← Persisted.computeScores (at_urgency tk) (at_risk tk)
             (snapshot title description bucket priority due_date);
  insert_stmt (at_insert tk) d title description area (JStr "open") bucket
    priority scores due_date.

(** The loop of lines 662-708.  [clk n] gives the clock readings for the
    draft handled when [n] tasks have been created so far; a skipped draft
    reads no clock.  The second component is [None] when a statement
    failed: the handler then answers through the error middleware, and the
    rows inserted before the failure stay. *)
Fixpoint brain_dump_loop (clk : nat -> ticks) (default_bucket default_area : JsVal)
    (tasks : list obj) (d : db) (created : list obj) : db * option (list obj) :=
  match tasks with
  | [] => (d, Some created)
  | t :: rest =>
      if negb (truthy (JStr (draft_title t))) then
        brain_dump_loop clk default_bucket default_area rest d created
      else
        match insert_draft (clk (length created)) default_bucket default_area t d with
        | None => (d, None)
        | Some (d', r) =>
            brain_dump_loop clk default_bucket default_area rest d'
              (created ++ [to_obj r])
        end
  end.

(** [POST /brain-dump], lines 608-714 *)
Definition post_brain_dump (clk : nat -> ticks) (api_key_set : bool)
    (body : obj) (reply : llm_reply) (d : db) : db * response :=
  let text := get body "text" in
  let default_bucket := get_default body "default_bucket" (JStr "today") in
  let default_area := get_default body "default_area" JNull in
  if negb (truthy text) || negb (is_string text) then
    (d, mk_response 400 (PError "text is required"))
  else if negb api_key_set then
    (d, mk_response 500 (PError "OPENAI_API_KEY not configured on backend"))
  else
    match reply with
    | LlmThrows => (d, mk_response 500 (PError "Internal server error"))
    | LlmBadJson => (d, mk_response 502 (PError "LLM returned invalid JSON"))
    | LlmDrafts [] => (d, mk_response 200 (PTasks []))
    | LlmDrafts tasks =>
        match brain_dump_loop clk default_bucket default_area tasks d [] with
        | (d', Some created) => (d', mk_response 201 (PTasks created))
        | (d', None) => (d', mk_response 500 (PError "Internal server error"))
        end
    end.

End Handlers.
End PersistedService.

(** ** The task service of the re-scoring revision (lines 938-1174) *)

Module RescoreService.
Section Handlers.
Context `{Engine} `{Store.Pg}.
Import Store.

(** [COALESCE(due_date, '9999-12-31')], read in UTC *)
Definition coalesce_due (r : row) : Z := default 253402214400000 (due_date r).

(** The ORDER BY of lines 961-965: [(status = 'done') ASC, bucket,
    priority, COALESCE(due_date, '9999-12-31') ASC].  [bucket] is a TEXT
    column, compared as text. *)
Definition list_order (a b : row) : comparison :=
  thenc (Bool.compare (String.eqb (status a) "done") (String.eqb (status b) "done"))
 (thenc (String.compare (bucket a) (bucket b))
 (thenc (priority a ?= priority b)
        (coalesce_due a ?= coalesce_due b))).

(** [GET /tasks], lines 952-973 *)
Definition get_tasks (clk : nat -> Z * Z) (d : db) : response :=
  match withScores clk (to_obj_scored <$> order_by list_order (rows d)) with
  | Some tasks => mk_response 200 (PTasks tasks)
  | None => mk_response 500 (PError "Failed to load tasks")
  end.

(** The INSERT of lines 992-1001; the score columns are left to their
    default, NULL. *)
Definition insert_stmt (now : Z) (d : db)
    (title description area status bucket priority due_date : JsVal)
    : option (db * row) :=
  ti ← not_null pg_text_in title;
  de ← nullable pg_text_in description;
  ar ← nullable pg_text_in area;
  st ← not_null pg_text_in status;
  bu ← not_null pg_text_in bucket;
  pr ← not_null pg_int4_in priority;
  du ← nullable pg_timestamptz_in due_date;
  Some (append d (fun i => mk_row i ti de ar st bu pr None None None None None
                                  du now now)).

(** [const [row] = withScores(result.rows)] for the one row returned *)
Definition rescored (tk : ticks) (r : row) : option obj :=
  rows ← withScores (fun _ => (at_urgency tk, at_risk tk)) [to_obj_scored r];
  head rows.

(** [POST /tasks], lines 976-1019 *)
Definition post_tasks (tk : ticks) (body : obj) (d : db) : db * response :=
  let title := get body "title" in
  let description := get_default body "description" JNull in
  let area := get_default body "area" JNull in
  let bucket := get_default body "bucket" (JStr "later") in
  let status := get_default body "status" (JStr "open") in
  let priority := get_default body "priority" (JNum (Int 3)) in
  let due_date := get_default body "due_date" JNull in
  if negb (truthy title) || negb (is_string title) then
    (d, mk_response 400 (PError "title is required"))
  else
    match insert_stmt (at_insert tk) d title description area status bucket
            priority due_date with
    | None => (d, mk_response 500 (PError "Failed to create task"))
    | Some (d', r) =>
        match rescored tk r with
        | Some row => (d', mk_response 201 (PTask row))
        | None => (d', mk_response 500 (PError "Failed to create task"))
        end
    end.

(** Lines 1141-1164: the destructuring of a draft and its INSERT, with
    the status ['open'] written in the statement. *)
Definition insert_draft (now : Z) (default_bucket default_area : JsVal)
    (t : obj) (d : db) : option (db * row) :=
  let title := get t "title" in
  let description := get_default t "description" JNull in
  let bucket := get_default t "bucket" default_bucket in
  let priority := get_default t "priority" (JNum (Int 3)) in
  let due_date := get_default t "due_date" JNull in
  let area := get_default t "area" (js_or default_area JNull) in
  insert_stmt now d title description area (JStr "open") bucket priority
    due_date.

(** The loop of lines 1138-1167, with the conventions of the persisting
    revision's loop. *)
Fixpoint brain_dump_loop (clk : nat -> ticks) (default_bucket default_area : JsVal)
    (tasks : list obj) (d : db) (created : list obj) : db * option (list obj) :=
  match tasks with
  | [] => (d, Some created)
  | t :: rest =>
      if negb (truthy (get t "title")) then
        brain_dump_loop clk default_bucket default_area rest d created
      else
        let tk := clk (length created) in
        match insert_draft (at_insert tk) default_bucket default_area t d with
        | None => (d, None)
        | Some (d', r) =>
            match rescored tk r with
            | Some row =>
                brain_dump_loop clk default_bucket default_area rest d'
                  (created ++ [row])
            | None => (d', None)
            end
        end
  end.

(** [POST /brain-dump], lines 1077-1174 *)
Definition post_brain_dump (clk : nat -> ticks) (body : obj) (reply : llm_reply)
    (d : db) : db * response :=
  let text := get body "text" in
  let default_bucket := get_default body "default_bucket" (JStr "today") in
  let default_area := get_default body "default_area" JNull in
  if negb (truthy text) || negb (is_string text) then
    (d, mk_response 400 (PError "text is required"))
  else
    match reply with
    | LlmThrows | LlmBadJson =>
        (d, mk_response 500 (PError "Failed to parse brain dump"))
    | LlmDrafts tasks =>
        match brain_dump_loop clk default_bucket default_area tasks d [] with
        | (d', Some created) => (d', mk_response 200 (PTasks created))
        | (d', None) => (d', mk_response 500 (PError "Failed to parse brain dump"))
        end
    end.

End Handlers.
End RescoreService.

(** ** Sample collaborators

    A concrete engine and a concrete store driver, used to run the
    definitions on examples. *)

Definition sample_engine : Engine := {|
  Date_parse s :=
    if String.eqb s "1970-01-01T00:00:00.000Z" then Some 0 else None;
  Date_toString tv :=
    match tv with Some _ => "Thu Jan 01 1970" | None => "Invalid Date" end;
  Number_toString n :=
    match n with Int z => pretty z | NaN => "NaN" end;
  StringToNumber s :=
    if String.eqb (trim s) "" then Int 0 else parseInt10 s
|}.

Definition sample_text_in (v : JsVal) : option string :=
  match v with
  | JStr s => if Store.nul_free s then Some s else None
  | _ => None
  end.

Definition sample_int4_in (v : JsVal) : option Z :=
  match v with
  | JNum (Int z) =>
      if (-2147483648 <=? z) && (z <=? 2147483647) then Some z else None
  | _ => None
  end.

Definition sample_timestamptz_in (v : JsVal) : option Z :=
  match v with JDate (Some ms) => Some ms | _ => None end.

Definition sample_pg : Store.Pg.
Proof.
  refine {| Store.pg_text_in := sample_text_in;
            Store.pg_int4_in := sample_int4_in;
            Store.pg_timestamptz_in := sample_timestamptz_in |}.
  - intros s Hs. simpl. by rewrite Hs.
  - intros z [Hlo Hhi]. simpl.
    apply Z.leb_le in Hlo. apply Z.leb_le in Hhi. by rewrite Hlo, Hhi.
Defined.

(** ** Vocabulary of the specification *)

(** "[s] contains [k], ignoring case": some stretch of [s] reads [k] once
    lower-cased. *)
Definition contains_ignoring_case (s k : string) : Prop :=
  exists pre w post, s = pre +:+ w +:+ post /\ toLowerCase w = k.


(** "a draft with a title": the test each loop applies before it inserts,
    [!title] on [t.title] in the re-scoring revision and on
    [String(t.title || "").trim()] in the persisting one. *)
Definition rescore_keeps (t : obj) : Prop := truthy (get t "title") = true.
Definition persisted_keeps `{Engine} (t : obj) : Prop :=
  truthy (JStr (PersistedService.draft_title t)) = true.

#[global] Instance rescore_keeps_dec t : Decision (rescore_keeps t).
Proof. unfold rescore_keeps. apply _. Defined.
#[global] Instance persisted_keeps_dec `{Engine} t : Decision (persisted_keeps t).
Proof. unfold persisted_keeps. apply _. Defined.

(** "the task's current field values (priority, bucket, due_date,
    description)": the task stripped of everything else. *)
Definition current_fields (t : obj) : obj :=
  list_to_map [ ("priority", get t "priority"); ("bucket", get t "bucket");
                ("due_date", get t "due_date");
                ("description", get t "description") ].

(** "Leverage + Urgency + Risk − Friction" *)
Definition composite (m : Metrics.t) : num :=
  num_sub (num_add (num_add (Metrics.L m) (Metrics.U m)) (Metrics.R m))
          (Metrics.F m).

(** ** Sample data *)

(** priority 1, bucket "today", no due date, empty description *)
Definition worked_example : obj :=
  {[ "priority" := JNum (Int 1); "bucket" := JStr "today";
     "description" := JStr "" ]}.


(** Two open tasks of equal priority and no due date, in heap order. *)
Definition row_today : Store.row :=
  Store.mk_row 1 "water the plants" None None "open" "today" 3
    None None None None None None 0 0.
Definition row_backlog : Store.row :=
  Store.mk_row 2 "sort old photos" None None "open" "backlog" 3
    None None None None None None 1 1.

Definition noon : ticks := mk_ticks 0 0 0.


(** ** Completing and deleting a task

    [PATCH /tasks/:id/complete] and [DELETE /tasks/:id] of the two Postgres
    revisions (lines 557-603 and 1021-1074). *)

Module Statements.
Import Store.

Definition mark_done (now : Z) (r : row) : row :=
  mk_row (id r) (title r) (description r) (area r) "done" (bucket r)
    (priority r) (leverage_score r) (urgency_score r) (risk_score r)
    (friction_score r) (score r) (due_date r) (created_at r) now.

(** [UPDATE tasks SET status = 'done', updated_at = NOW() WHERE id = $1
    RETURNING ...]: the table afterwards, and the rows returned. *)
Definition update_done (now k : Z) (d : db) : db * list row :=
  (mk_db ((fun r => if id r =? k then mark_done now r else r) <$> rows d)
         (next_id d),
   mark_done now <$> filter (fun r => id r = k) (rows d)).

(** [DELETE FROM tasks WHERE id = $1]: the table afterwards, and
    [rowCount]. *)
Definition delete_where (k : Z) (d : db) : db * nat :=
  (mk_db (filter (fun r => id r <> k) (rows d)) (next_id d),
   length (filter (fun r => id r = k) (rows d))).

End Statements.

(** [Number.isInteger(n)] *)
Definition Number_isInteger (n : num) : bool :=
  match n with Int _ => true | NaN => false end.

(** What a route sends: a JSON body with a status, an empty 204, or the
    body [{ ok: true }]. *)
Inductive reply :=
  | Json (r : response)
  | NoContent
  | OkTrue.

Module PersistedRoutes.
Section Handlers.
Context `{Engine} `{Store.Pg}.
Import Store Statements.

(** [PATCH /tasks/:id/complete], lines 558-582; [param] is
    [req.params.id]. *)
Definition patch_complete (now : Z) (param : string) (d : db) : db * response :=
  let id := ToNumber (JStr param) in
  if negb (Number_isInteger id) then
    (d, mk_response 400 (PError "invalid id"))
  else
    match pg_int4_in (JNum id) with
    | None => (d, mk_response 500 (PError "Internal server error"))
    | Some k =>
        let '(d', rows) := update_done now k d in
        match rows with
        | [] => (d', mk_response 404 (PError "task not found"))
        | row :: _ => (d', mk_response 200 (PTask (to_obj row)))
        end
    end.

(** [DELETE /tasks/:id], lines 585-603 *)
Definition delete_task (param : string) (d : db) : db * reply :=
  let id := ToNumber (JStr param) in
  if negb (Number_isInteger id) then
    (d, Json (mk_response 400 (PError "invalid id")))
  else
    match pg_int4_in (JNum id) with
    | None => (d, Json (mk_response 500 (PError "Internal server error")))
    | Some k =>
        let '(d', rowCount) := delete_where k d in
        if (rowCount =? 0)%nat then
          (d', Json (mk_response 404 (PError "task not found")))
        else (d', NoContent)
    end.

End Handlers.
End PersistedRoutes.

Module RescoreRoutes.
Section Handlers.
Context `{Engine} `{Store.Pg}.
Import Store Statements.

(** [PATCH /tasks/:id/complete], lines 1022-1053 *)
Definition patch_complete (tk : ticks) (param : string) (d : db) : db * response :=
  let id := ToNumber (JStr param) in
  if negb (Number_isInteger id) then
    (d, mk_response 400 (PError "Invalid id"))
  else
    match pg_int4_in (JNum id) with
    | None => (d, mk_response 500 (PError "Failed to complete task"))
    | Some k =>
        let '(d', rows) := update_done (at_insert tk) k d in
        if (length rows =? 0)%nat then
          (d', mk_response 404 (PError "Task not found"))
        else
          match withScores (fun _ => (at_urgency tk, at_risk tk))
                  (to_obj_scored <$> rows) with
          | Some (row :: _) => (d', mk_response 200 (PTask row))
          | _ => (d', mk_response 500 (PError "Failed to complete task"))
          end
    end.

(** [DELETE /tasks/:id], lines 1056-1074 *)
Definition delete_task (param : string) (d : db) : db * reply :=
  let id := ToNumber (JStr param) in
  if negb (Number_isInteger id) then
    (d, Json (mk_response 400 (PError "Invalid id")))
  else
    match pg_int4_in (JNum id) with
    | None => (d, Json (mk_response 500 (PError "Failed to delete task")))
    | Some k =>
        let '(d', rowCount) := delete_where k d in
        if (rowCount =? 0)%nat then
          (d', Json (mk_response 404 (PError "Task not found")))
        else (d', OkTrue)
    end.

End Handlers.
End RescoreRoutes.

(** ** Tables the service can produce

    The tables reachable from the empty table through the routes that
    write: creating, brain-dumping, completing and deleting. *)

Inductive rescore_reachable `{Engine} `{Store.Pg} : Store.db -> Prop :=
  | rescore_empty : rescore_reachable (Store.mk_db [] 1)
  | rescore_post tk body d :
      rescore_reachable d ->
      rescore_reachable (RescoreService.post_tasks tk body d).1
  | rescore_dump clk body reply d :
      rescore_reachable d ->
      rescore_reachable (RescoreService.post_brain_dump clk body reply d).1
  | rescore_complete tk param d :
      rescore_reachable d ->
      rescore_reachable (RescoreRoutes.patch_complete tk param d).1
  | rescore_delete param d :
      rescore_reachable d ->
      rescore_reachable (RescoreRoutes.delete_task param d).1.

Inductive persisted_reachable `{Engine} `{Store.Pg} : Store.db -> Prop :=
  | persisted_empty : persisted_reachable (Store.mk_db [] 1)
  | persisted_post tk body d :
      persisted_reachable d ->
      persisted_reachable (PersistedService.post_tasks tk body d).1
  | persisted_dump clk key body reply d :
      persisted_reachable d ->
      persisted_reachable (PersistedService.post_brain_dump clk key body reply d).1
  | persisted_complete now param d :
      persisted_reachable d ->
      persisted_reachable (PersistedRoutes.patch_complete now param d).1
  | persisted_delete param d :
      persisted_reachable d ->
      persisted_reachable (PersistedRoutes.delete_task param d).1.

(** Every id is below the SERIAL counter and no id occurs twice. *)
Definition ids_fresh (d : Store.db) : Prop :=
  Forall (fun r => Store.id r < Store.next_id d) (Store.rows d) /\
  NoDup (Store.id <$> Store.rows d).

(** The three score columns that [computeTonyScore] would trust are NULL. *)
Definition unscored (r : Store.row) : Prop :=
  Store.leverage_score r = None /\ Store.risk_score r = None /\
  Store.friction_score r = None.

(** The four score columns hold numbers within their ranges. *)
Definition scored_in_range (r : Store.row) : Prop :=
  (exists l, Store.leverage_score r = Some l /\ 1 <= l <= 5) /\
  (exists u, Store.urgency_score r = Some u /\ 1 <= u <= 5) /\
  (exists k, Store.risk_score r = Some k /\ 2 <= k <= 4) /\
  (exists f, Store.friction_score r = Some f /\ 1 <= f <= 3).

(** The order the ORDER BY of lines 961-965 denotes, key by key: the done
    flag, then the bucket name as text, then the priority, then the due
    date with NULL read as 9999-12-31. *)
Definition text_lt (s1 s2 : string) : Prop := String.compare s1 s2 = Lt.

Definition done_flag (r : Store.row) : Z :=
  Z.b2z (String.eqb (Store.status r) "done").

Definition rescore_list_le (a b : Store.row) : Prop :=
  done_flag a < done_flag b \/
  (done_flag a = done_flag b /\
   (text_lt (Store.bucket a) (Store.bucket b) \/
    (Store.bucket a = Store.bucket b /\
     (Store.priority a < Store.priority b \/
      (Store.priority a = Store.priority b /\
       RescoreService.coalesce_due a <= RescoreService.coalesce_due b))))).

(** A task that is already done, of low priority. *)
Definition row_filed : Store.row :=
  Store.mk_row 3 "file the report" None None "done" "today" 5
    None None None None None None 2 2.

(** ** The per-user task service of the SQLite revision (lines 185-324)

    SQLite keeps a value of any storage class in any column, so the columns
    of a stored row hold values that are NULL, an integer or text.  The
    signed-in user is [req.user.id], or nothing when the request is not
    authenticated. *)

Module SqliteService.

Inductive sqlval := SNull | SInt (z : Z) | SText (s : string).

#[global] Instance sqlval_eq_dec : EqDecision sqlval.
Proof. solve_decision. Defined.

(** The JavaScript value the driver returns for a stored value. *)
Definition to_js (v : sqlval) : JsVal :=
  match v with
  | SNull => JNull
  | SInt z => JNum (Int z)
  | SText s => JStr s
  end.

Record row := mk_row {
  id : Z;
  title : sqlval;
  description : sqlval;
  area : sqlval;
  status : sqlval;
  bucket : sqlval;
  priority : sqlval;
  due_date : sqlval;
  created_at : sqlval;
  updated_at : sqlval;
  user_id : option Z
}.

Record db := mk_db { rows : list row; next_id : Z }.

(** What the driver and the column affinity make of a bound parameter:
    [None] when the driver refuses the value.  Text is kept as text in a
    TEXT column, an integer as that integer in an INTEGER column, and null
    is NULL in both. *)
Class Driver := {
  bind_text : JsVal -> option sqlval;
  bind_int : JsVal -> option sqlval;
  bind_text_str : forall s, bind_text (JStr s) = Some (SText s);
  bind_text_null : bind_text JNull = Some SNull;
  bind_int_int : forall z, bind_int (JNum (Int z)) = Some (SInt z)
}.

(** A NOT NULL column refuses NULL. *)
Definition not_null (v : option sqlval) : option sqlval :=
  match v with
  | Some SNull => None
  | other => other
  end.

Definition to_obj (r : row) : obj :=
  list_to_map
    [ ("id", JNum (Int (id r))); ("title", to_js (title r));
      ("description", to_js (description r)); ("area", to_js (area r));
      ("status", to_js (status r)); ("bucket", to_js (bucket r));
      ("priority", to_js (priority r)); ("due_date", to_js (due_date r));
      ("created_at", to_js (created_at r)); ("updated_at", to_js (updated_at r));
      ("user_id", match user_id r with Some u => JNum (Int u) | None => JNull end) ].

(** The order of SQLite values: NULL, then numbers, then text. *)
Definition storage_class (v : sqlval) : Z :=
  match v with
  | SNull => 0
  | SInt _ => 1
  | SText _ => 2
  end.

Definition value_compare (a b : sqlval) : comparison :=
  match a, b with
  | SInt x, SInt y => x ?= y
  | SText s, SText t => String.compare s t
  | _, _ => storage_class a ?= storage_class b
  end.

(** [CASE bucket WHEN 'today' THEN 1 WHEN 'this_week' THEN 2 WHEN 'later'
    THEN 3 ELSE 4 END], lines 192-197 *)
Definition bucket_case (v : sqlval) : Z :=
  match v with
  | SText s => Sqlite.bucket_rank s
  | _ => 4
  end.

(** The ORDER BY of lines 191-199: bucket rank, [priority ASC],
    [created_at DESC]. *)
Definition list_order (a b : row) : comparison :=
  Store.thenc (bucket_case (bucket a) ?= bucket_case (bucket b))
 (Store.thenc (value_compare (priority a) (priority b))
              (CompOpp (value_compare (created_at a) (created_at b)))).

Fixpoint insert_by (cmp : row -> row -> comparison) (x : row) (l : list row) : list row :=
  match l with
  | [] => [x]
  | y :: rest =>
      match cmp x y with
      | Gt => y :: insert_by cmp x rest
      | _ => x :: l
      end
  end.

Definition order_by (cmp : row -> row -> comparison) (l : list row) : list row :=
  foldr (insert_by cmp) [] l.

Definition owned_by (u : Z) (r : row) : Prop := user_id r = Some u.

#[global] Instance owned_by_dec u r : Decision (owned_by u r).
Proof. unfold owned_by. apply _. Defined.

Definition unauthorized : reply := Json (mk_response 401 (PError "Unauthorized")).
Definition server_error : reply :=
  Json (mk_response 500 (PError "Internal Server Error")).

Section Handlers.
Context `{Engine} `{Driver}.

(** [GET /api/tasks], lines 235-238, behind [ensureAuth] (lines 131-134) *)
Definition get_tasks (user : option Z) (d : db) : reply :=
  match user with
  | None => unauthorized
  | Some u =>
      Json (mk_response 200
              (PTasks (to_obj <$> order_by list_order (filter (owned_by u) (rows d)))))
  end.

(** [SELECT * FROM tasks WHERE id = ? AND user_id = ?] *)
Definition find_task (k u : Z) (d : db) : option row :=
  head (filter (fun r => id r = k /\ owned_by u r) (rows d)).

(** [POST /api/tasks], lines 241-275; [now] is [new Date().toISOString()].
    A refused parameter or a violated NOT NULL makes [run] throw, which the
    framework answers with a 500. *)
Definition post_task (now : string) (user : option Z) (body : obj) (d : db)
  : db * reply :=
  match user with
  | None => (d, unauthorized)
  | Some u =>
      let title := get body "title" in
      let description := get_default body "description" (JStr "") in
      let area := get_default body "area" (JStr "") in
      let status := get_default body "status" (JStr "todo") in
      let bucket := get_default body "bucket" (JStr "later") in
      let priority := get_default body "priority" (JNum (Int 3)) in
      let due_date := get_default body "due_date" JNull in
      if negb (truthy title) || negb (is_string title) then
        (d, Json (mk_response 400 (PError "title is required")))
      else
        match
          ti ← not_null (bind_text title);
          de ← bind_text description;
          ar ← bind_text area;
          st ← not_null (bind_text status);
          bu ← not_null (bind_text bucket);
          pr ← not_null (bind_int priority);
          du ← bind_text due_date;
          Some (mk_row (next_id d) ti de ar st bu pr du (SText now) (SText now) (Some u))
        with
        | None => (d, server_error)
        | Some r =>
            (mk_db (rows d ++ [r]) (next_id d + 1),
             Json (mk_response 201 (PTask (to_obj r))))
        end
  end.

(** [PUT /api/tasks/:id], lines 278-315 *)
Definition put_task (now : string) (user : option Z) (param : string) (body : obj)
    (d : db) : db * reply :=
  match user with
  | None => (d, unauthorized)
  | Some u =>
      match ToNumber (JStr param) with
      | NaN | Int 0 => (d, Json (mk_response 400 (PError "invalid id")))
      | Int k =>
          match find_task k u d with
          | None => (d, Json (mk_response 404 (PError "not found")))
          | Some existing =>
              let e := to_obj existing in
              let title := get_default body "title" (get e "title") in
              let description := get_default body "description" (get e "description") in
              let area := get_default body "area" (get e "area") in
              let status := get_default body "status" (get e "status") in
              let bucket := get_default body "bucket" (get e "bucket") in
              let priority := get_default body "priority" (get e "priority") in
              let due_date := get_default body "due_date" (get e "due_date") in
              match
                ti ← not_null (bind_text title);
                de ← bind_text description;
                ar ← bind_text area;
                st ← not_null (bind_text status);
                bu ← not_null (bind_text bucket);
                pr ← not_null (bind_int priority);
                du ← bind_text due_date;
                Some (fun r : row =>
                        mk_row (id r) ti de ar st bu pr du (created_at r) (SText now)
                               (user_id r))
              with
              | None => (d, server_error)
              | Some upd =>
                  let d' :=
                    mk_db ((fun r => if decide (id r = k /\ owned_by u r)
                                     then upd r else r) <$> rows d)
                          (next_id d) in
                  (* [res.json({ task: updated })]; without a row the
                     object is empty *)
                  (d', Json (mk_response 200
                               (PTask (default ∅ (to_obj <$> find_task k u d')))))
              end
          end
      end
  end.

(** [DELETE /api/tasks/:id], lines 318-324: there is no not-found answer. *)
Definition delete_task (user : option Z) (param : string) (d : db) : db * reply :=
  match user with
  | None => (d, unauthorized)
  | Some u =>
      match ToNumber (JStr param) with
      | NaN | Int 0 => (d, Json (mk_response 400 (PError "invalid id")))
      | Int k =>
          (mk_db (filter (fun r => ~ (id r = k /\ owned_by u r)) (rows d)) (next_id d),
           NoContent)
      end
  end.

End Handlers.
End SqliteService.

(** A column as the service itself writes it: text or NULL in a TEXT
    column, an integer in [priority]. *)
Definition text_or_null (v : SqliteService.sqlval) : Prop :=
  match v with SqliteService.SInt _ => False | _ => True end.

Definition plain_row (r : SqliteService.row) : Prop :=
  (exists s, SqliteService.title r = SqliteService.SText s) /\
  text_or_null (SqliteService.description r) /\
  text_or_null (SqliteService.area r) /\
  (exists s, SqliteService.status r = SqliteService.SText s) /\
  (exists s, SqliteService.bucket r = SqliteService.SText s) /\
  (exists z, SqliteService.priority r = SqliteService.SInt z) /\
  text_or_null (SqliteService.due_date r).

(** A request field that is left out or holds text, and the column it
    leads to. *)
Definition text_field (v : JsVal) : Prop := v = JUndefined \/ exists s, v = JStr s.

Definition patched (old : SqliteService.sqlval) (v : JsVal) : SqliteService.sqlval :=
  match v with
  | JStr s => SqliteService.SText s
  | JNum (Int z) => SqliteService.SInt z
  | _ => old
  end.

(** A concrete driver for examples: it takes text, integers and null. *)
Definition sample_bind (v : JsVal) : option SqliteService.sqlval :=
  match v with
  | JStr s => Some (SqliteService.SText s)
  | JNum (Int z) => Some (SqliteService.SInt z)
  | JNull => Some SqliteService.SNull
  | _ => None
  end.

Definition sample_driver : SqliteService.Driver :=
  {| SqliteService.bind_text := sample_bind;
     SqliteService.bind_int := sample_bind;
     SqliteService.bind_text_str := fun s => eq_refl;
     SqliteService.bind_text_null := eq_refl;
     SqliteService.bind_int_int := fun z => eq_refl |}.

(** Two users' tasks in one table. *)
Definition ann_task : SqliteService.row :=
  SqliteService.mk_row 1 (SqliteService.SText "renew passport") (SqliteService.SText "")
    (SqliteService.SText "") (SqliteService.SText "todo") (SqliteService.SText "later")
    (SqliteService.SInt 2) SqliteService.SNull (SqliteService.SText "2024-01-01T10:00:00.000Z")
    (SqliteService.SText "2024-01-01T10:00:00.000Z") (Some 10).

Definition bob_task : SqliteService.row :=
  SqliteService.mk_row 2 (SqliteService.SText "order cake") (SqliteService.SText "")
    (SqliteService.SText "") (SqliteService.SText "todo") (SqliteService.SText "today")
    (SqliteService.SInt 3) SqliteService.SNull (SqliteService.SText "2024-01-02T10:00:00.000Z")
    (SqliteService.SText "2024-01-02T10:00:00.000Z") (Some 20).

Definition shared_table : SqliteService.db := SqliteService.mk_db [ann_task; bob_task] 3.

(** A request body whose fields, where given, hold what the columns take:
    text in the six text fields, an integer in [priority]. *)
Definition int_field (v : JsVal) : Prop := v = JUndefined \/ exists z, v = JNum (Int z).

Definition fields_ok (body : obj) : Prop :=
  text_field (get body "title") /\ text_field (get body "description") /\
  text_field (get body "area") /\ text_field (get body "status") /\
  text_field (get body "bucket") /\ int_field (get body "priority") /\
  text_field (get body "due_date").

(** The columns of [old] overwritten by the fields the body gives; the id,
    the owner and the creation time are those of [r]. *)
Definition merged (now : string) (old : SqliteService.row) (body : obj)
    (r : SqliteService.row) : SqliteService.row :=
  SqliteService.mk_row (SqliteService.id r)
    (patched (SqliteService.title old) (get body "title"))
    (patched (SqliteService.description old) (get body "description"))
    (patched (SqliteService.area old) (get body "area"))
    (patched (SqliteService.status old) (get body "status"))
    (patched (SqliteService.bucket old) (get body "bucket"))
    (patched (SqliteService.priority old) (get body "priority"))
    (patched (SqliteService.due_date old) (get body "due_date"))
    (SqliteService.created_at r) (SqliteService.SText now) (SqliteService.user_id r).

(** The row a new task starts from: the defaults of the destructuring at
    lines 243-251, with both time stamps at [now]. *)
Definition blank_task (now : string) (u k : Z) : SqliteService.row :=
  SqliteService.mk_row k SqliteService.SNull (SqliteService.SText "")
    (SqliteService.SText "") (SqliteService.SText "todo") (SqliteService.SText "later")
    (SqliteService.SInt 3) SqliteService.SNull (SqliteService.SText now)
    (SqliteService.SText now) (Some u).

(** * Properties *)

(** ** Comparisons on hours *)

Lemma Qltb_lt (a b : Q) : Qltb a b = true <-> (a < b)%Q.
Proof.
  unfold Qltb. rewrite negb_true_iff. split.
  - intros Hf. apply Qnot_le_lt. intros Hle.
    apply Qle_bool_iff in Hle. congruence.
  - intros Hlt. destruct (Qle_bool b a) eqn:E; [|done].
    apply Qle_bool_iff in E. exfalso. by apply (Qlt_not_le a b).
Qed.

Lemma Qltb_ge (a b : Q) : Qltb a b = false <-> (b <= a)%Q.
Proof. unfold Qltb. rewrite negb_false_iff. apply Qle_bool_iff. Qed.

Lemma Qleb_gt (a b : Q) : Qle_bool a b = false <-> (b < a)%Q.
Proof. rewrite <- Qltb_lt. unfold Qltb. by destruct (Qle_bool a b). Qed.


(** Splits the four threshold tests of [urgencyScore] on the hours [h] and
    turns each outcome into an inequality in [Q]. *)
Ltac urgency_bands h :=
  let E0 := fresh "E0" in let E1 := fresh "E1" in
  let E2 := fresh "E2" in let E3 := fresh "E3" in
  destruct (Qltb h 0) eqn:E0;
    [apply Qltb_lt in E0 | apply Qltb_ge in E0;
     destruct (Qle_bool h 24) eqn:E1;
       [apply Qle_bool_iff in E1 | apply Qleb_gt in E1;
        destruct (Qle_bool h 72) eqn:E2;
          [apply Qle_bool_iff in E2 | apply Qleb_gt in E2;
           destruct (Qle_bool h (24 * 7)) eqn:E3;
             [apply Qle_bool_iff in E3 | apply Qleb_gt in E3]]]].

Ltac hours_lia := unfold diffHours, Qlt, Qle in *; simpl in *; lia.

(** ** Urgency *)

(** The re-scoring revision defaults a falsy bucket to ["later"] before it
    is compared; that changes nothing, so the two revisions compute the
    same urgency. *)
Lemma urgency_agree {E : Engine} now (t : obj) :
  Rescore.urgencyScore now t (js_or (get t "bucket") (JStr "later"))
  = Persisted.urgencyScore now t.
Proof.
  unfold Rescore.urgencyScore, Persisted.urgencyScore. cbv zeta.
  destruct (negb (truthy (get t "due_date"))); [|done].
  unfold js_or. destruct (truthy (get t "bucket")) eqn:Hb; [done|].
  destruct (get t "bucket") as [| |b|n|s|tv]; simpl in *; try done.
  destruct (String.eqb_spec s ""); [subst; done | done].
Qed.

Lemma urgency_range {E : Engine} now (t : obj) :
  1 <= Persisted.urgencyScore now t <= 5.
Proof.
  unfold Persisted.urgencyScore. cbv zeta.
  repeat match goal with
         | |- context [if ?b then _ else _] => destruct b
         | |- context [match ?o with Some _ => _ | None => _ end] => destruct o
         end; lia.
Qed.



(** C10.  With the clock and the other fields fixed, urgency is antitone in
    a due date that is present and reads as a valid instant: of two such
    due dates the earlier one never has the smaller urgency. *)
Theorem urgency_antitone {E : Engine} (now : Z) (task : obj) (v1 v2 : JsVal)
    (d1 d2 : Z) :
  truthy v1 = true -> truthy v2 = true ->
  new_Date v1 = Some d1 -> new_Date v2 = Some d2 ->
  d1 <= d2 ->
  let task1 : obj := <["due_date" := v1]> task in
  let task2 : obj := <["due_date" := v2]> task in
  Persisted.urgencyScore now task2 <= Persisted.urgencyScore now task1 /\
  Rescore.urgencyScore now task2 (js_or (get task2 "bucket") (JStr "later"))
  <= Rescore.urgencyScore now task1 (js_or (get task1 "bucket") (JStr "later")).
Proof.
  intros T1 T2 P1 P2 Hle task1 task2.
  rewrite !urgency_agree.
  assert (Persisted.urgencyScore now task2 <= Persisted.urgencyScore now task1)
    as Hmain; [|done].
  unfold Persisted.urgencyScore. cbv zeta.
  unfold task1, task2, get. rewrite !lookup_insert_eq. simpl.
  rewrite T1, T2, P1, P2. simpl.
  set (h1 := diffHours d1 now). set (h2 := diffHours d2 now).
  urgency_bands h1; urgency_bands h2; try lia; exfalso;
    unfold h1, h2 in *; hours_lia.
Qed.

(** Moving a deadline from thirty hours ahead to ten hours ahead raises the
    urgency from 3 to 4. *)
Lemma urgency_antitone_witness :
  let task1 : obj := <["due_date" := JDate (Some 36000000)]> ∅ in
  let task2 : obj := <["due_date" := JDate (Some 108000000)]> ∅ in
  Persisted.urgencyScore (H:=sample_engine) 0 task2
  <= Persisted.urgencyScore (H:=sample_engine) 0 task1 /\
  Rescore.urgencyScore (H:=sample_engine) 0 task2
    (js_or (get task2 "bucket") (JStr "later"))
  <= Rescore.urgencyScore (H:=sample_engine) 0 task1
       (js_or (get task1 "bucket") (JStr "later")).
Proof.
  apply (urgency_antitone (E:=sample_engine) 0 ∅
           (JDate (Some 36000000)) (JDate (Some 108000000))
           36000000 108000000); (reflexivity || lia).
Defined.

(** ** Leverage *)

Lemma parseInt_three {E : Engine} : parseInt (JStr "3") = Int 3.
Proof. reflexivity. Qed.





(** ** Friction *)

Lemma append_nil_l (b : string) : "" +:+ b = b.
Proof. reflexivity. Qed.

Lemma append_cons_l c (a b : string) : String c a +:+ b = String c (a +:+ b).
Proof. reflexivity. Qed.

Lemma prefix_app (sub s : string) :
  String.prefix sub s = true <-> exists post, s = sub +:+ post.
Proof.
  revert s. induction sub as [|c sub IH]; intros s.
  - split; [intros _; by exists s | by destruct s].
  - destruct s as [|c' s]; simpl.
    + split; [done | by intros [post ?]].
    + destruct (Ascii.ascii_dec c c') as [->|Hne].
      * rewrite IH. split; intros [post Hp]; exists post;
          rewrite append_cons_l in *; congruence.
      * split; [done | intros [post Hp]; rewrite append_cons_l in Hp; congruence].
Qed.

Lemma includes_app (s sub : string) :
  includes s sub = true <-> exists pre post, s = pre +:+ sub +:+ post.
Proof.
  induction s as [|c s IH]; cbn [includes].
  - rewrite orb_false_r, prefix_app. split.
    + intros [post Hp]. by exists "", post.
    + intros (pre & post & Hp). destruct pre; [eauto | done].
  - rewrite orb_true_iff, prefix_app, IH. split.
    + intros [[post Hp] | (pre & post & Hp)].
      * by exists "", post.
      * exists (String c pre), post. by rewrite append_cons_l, Hp.
    + intros (pre & post & Hp). destruct pre as [|c' pre].
      * left. eauto.
      * right. exists pre, post. rewrite append_cons_l in Hp. congruence.
Qed.

Lemma toLowerCase_app (a b : string) :
  toLowerCase (a +:+ b) = toLowerCase a +:+ toLowerCase b.
Proof.
  induction a as [|c a IH]; [done|].
  rewrite append_cons_l. simpl. by rewrite IH.
Qed.

Lemma toLowerCase_app_inv (s a b : string) :
  toLowerCase s = a +:+ b ->
  exists s1 s2, s = s1 +:+ s2 /\ toLowerCase s1 = a /\ toLowerCase s2 = b.
Proof.
  revert s. induction a as [|c a IH]; intros s Hs.
  - by exists "", s.
  - rewrite append_cons_l in Hs.
    destruct s as [|c' s]; simpl in Hs; [done|].
    injection Hs as Hc Hr. destruct (IH s Hr) as (s1 & s2 & -> & H1 & H2).
    exists (String c' s1), s2. simpl. by rewrite Hc, H1, H2.
Qed.

(** The scan [desc.toLowerCase().includes(k)] is "contains, ignoring case". *)
Lemma includes_ignoring_case (s k : string) :
  includes (toLowerCase s) k = true <-> contains_ignoring_case s k.
Proof.
  rewrite includes_app. unfold contains_ignoring_case. split.
  - intros (pre & post & Hs).
    destruct (toLowerCase_app_inv _ _ _ Hs) as (s1 & s2 & -> & H1 & H2).
    destruct (toLowerCase_app_inv _ _ _ H2) as (w & s3 & -> & H3 & H4).
    by exists s1, w, s3.
  - intros (pre & w & post & -> & Hw).
    exists (toLowerCase pre), (toLowerCase post).
    by rewrite !toLowerCase_app, Hw.
Qed.

Lemma toLowerCase_nonempty (s : string) : s <> "" -> toLowerCase s <> "".
Proof. by destruct s. Qed.

Lemma friction_agree {E : Engine} (t : obj) :
  is_number (get t "friction_score") = false ->
  Rescore.frictionScore t = Int <$> Persisted.frictionScore t.
Proof.
  intros Hs. unfold Rescore.frictionScore, Persisted.frictionScore.
  destruct (get t "friction_score"); try done;
    destruct (call_toLowerCase _); simpl; try done;
    repeat match goal with |- context [if ?b then _ else _] => destruct b end;
    done.
Qed.

(** C3, as amended.  In the re-scoring revision a numeric stored
    [friction_score] is returned as it is.  Otherwise, in either revision:
    an empty or absent description gives 2; a description that contains
    "tax", "accounting" or "legal" (ignoring case) gives 3; failing that,
    one that contains "call" or "email" gives 1; any other text gives 2. *)
Theorem friction_by_rules {E : Engine} (t : obj) (f : option num) :
  f = Int <$> Persisted.frictionScore t \/
  (is_number (get t "friction_score") = false /\ f = Rescore.frictionScore t) ->
  (forall n, get t "friction_score" = JNum n -> Rescore.frictionScore t = Some n) /\
  (truthy (get t "description") = false -> f = Some (Int 2)) /\
  (forall s, get t "description" = JStr s -> s <> "" ->
     let high := contains_ignoring_case s "tax" \/
                 contains_ignoring_case s "accounting" \/
                 contains_ignoring_case s "legal" in
     let low := contains_ignoring_case s "call" \/
                contains_ignoring_case s "email" in
     (high -> f = Some (Int 3)) /\
     (~ high -> low -> f = Some (Int 1)) /\
     (~ high -> ~ low -> f = Some (Int 2))).
Proof.
  intros Hf.
  assert (f = Int <$> Persisted.frictionScore t) as ->.
  { destruct Hf as [-> | [Hs ->]]; [done | by apply friction_agree]. }
  clear Hf. split; [|split].
  - intros n Hn. unfold Rescore.frictionScore. by rewrite Hn.
  - intros Hd. unfold Persisted.frictionScore, js_or. by rewrite Hd.
  - intros s Hd Hs high low.
    unfold Persisted.frictionScore, js_or. rewrite Hd. simpl.
    destruct (String.eqb_spec s ""); [done|]. simpl.
    destruct (String.eqb_spec (toLowerCase s) "") as [He|_];
      [by apply toLowerCase_nonempty in He|]. simpl.
    pose proof (includes_ignoring_case s "tax") as Ht.
    pose proof (includes_ignoring_case s "accounting") as Ha.
    pose proof (includes_ignoring_case s "legal") as Hl.
    pose proof (includes_ignoring_case s "call") as Hc.
    pose proof (includes_ignoring_case s "email") as Hm.
    unfold high, low.
    destruct (includes (toLowerCase s) "tax");
      destruct (includes (toLowerCase s) "accounting");
      destruct (includes (toLowerCase s) "legal");
      destruct (includes (toLowerCase s) "call");
      destruct (includes (toLowerCase s) "email");
      simpl; repeat split; intros; try done;
      exfalso; intuition congruence.
Qed.

(** "Call the TAX office" mentions a tax matter: friction 3, although it
    also says "call". *)
Lemma friction_by_rules_witness :
  let t : obj := {[ "description" := JStr "Call the TAX office" ]} in
  Persisted.frictionScore t = Some 3 /\
  Rescore.frictionScore t = Some (Int 3).
Proof.
  intros t.
  assert (Hhigh : contains_ignoring_case "Call the TAX office" "tax" \/
                  contains_ignoring_case "Call the TAX office" "accounting" \/
                  contains_ignoring_case "Call the TAX office" "legal").
  { left. by exists "Call the ", "TAX", " office". }
  split.
  - destruct (friction_by_rules (E:=sample_engine) t
                (Int <$> Persisted.frictionScore t) (or_introl eq_refl))
      as (_ & _ & Hr).
    destruct (Hr "Call the TAX office" eq_refl ltac:(done)) as (H3 & _).
    specialize (H3 Hhigh). reflexivity.
  - destruct (friction_by_rules (E:=sample_engine) t
                (Rescore.frictionScore t) (or_intror (conj eq_refl eq_refl)))
      as (_ & _ & Hr).
    destruct (Hr "Call the TAX office" eq_refl ltac:(done)) as (H3 & _).
    exact (H3 Hhigh).
Defined.

(** C3 as stated fails in the re-scoring revision: a row that carries a
    stored [friction_score] keeps it, whatever its description says. *)
Lemma friction_not_always_scanned :
  let t : obj := {[ "description" := JStr "file the tax return";
                    "friction_score" := JNum (Int 1) ]} in
  contains_ignoring_case "file the tax return" "tax" /\
  Rescore.frictionScore t = Some (Int 1) /\
  Some (Int 1) <> Some (Int 3).
Proof.
  repeat split; [|discriminate]. by exists "file the ", "tax", " return".
Qed.

(** ** Risk *)

(** C4, as amended.  In the re-scoring revision a numeric stored
    [risk_score] is returned as it is.  Otherwise, in either revision, risk
    is read off the urgency computed at the same clock reading: urgency 4
    or more gives 4, urgency 3 gives 3, anything else gives 2; so it lies
    between 2 and 4. *)
Theorem risk_by_urgency {E : Engine} (now : Z) (t : obj) :
  (forall n, get t "risk_score" = JNum n ->
     forall bucket, Rescore.riskScore now t bucket = n) /\
  (forall r u : Z,
     (r = Persisted.riskScore now t /\ u = Persisted.urgencyScore now t) \/
     (exists bucket, is_number (get t "risk_score") = false /\
        Int r = Rescore.riskScore now t bucket /\
        u = Rescore.urgencyScore now t bucket) ->
     (4 <= u -> r = 4) /\ (u = 3 -> r = 3) /\ (u < 3 -> r = 2) /\
     2 <= r <= 4).
Proof.
  split.
  - intros n Hn bucket. unfold Rescore.riskScore. by rewrite Hn.
  - intros r u Hru.
    assert (r = if 4 <=? u then 4 else if u =? 3 then 3 else 2) as ->.
    { destruct Hru as [[-> ->] | (bucket & Hs & Hr & ->)]; [done|].
      unfold Rescore.riskScore in Hr.
      destruct (get t "risk_score"); try done;
        repeat match type of Hr with
               | context [if ?b then _ else _] => destruct b
               end; congruence. }
    destruct (Z.leb_spec 4 u); [lia|].
    destruct (Z.eqb_spec u 3); lia.
Qed.

(** A task in bucket "today" without a due date: urgency 3, risk 3. *)
Lemma risk_by_urgency_witness :
  let t : obj := {[ "bucket" := JStr "today" ]} in
  Persisted.urgencyScore (H:=sample_engine) 0 t = 3 /\
  Persisted.riskScore (H:=sample_engine) 0 t = 3.
Proof.
  intros t.
  destruct (risk_by_urgency (E:=sample_engine) 0 t) as [_ Hr].
  destruct (Hr (Persisted.riskScore (H:=sample_engine) 0 t)
               (Persisted.urgencyScore (H:=sample_engine) 0 t)
               (or_introl (conj eq_refl eq_refl))) as (_ & H3 & _).
  split; [reflexivity | exact (H3 eq_refl)].
Defined.

(** C4 as stated fails in the re-scoring revision: a row that carries a
    stored [risk_score] keeps it, here 7 beside an urgency of 3. *)
Lemma risk_not_always_from_urgency :
  let t : obj := {[ "bucket" := JStr "today"; "risk_score" := JNum (Int 7) ]} in
  Rescore.urgencyScore (H:=sample_engine) 0 t (JStr "today") = 3 /\
  Rescore.riskScore (H:=sample_engine) 0 t (JStr "today") = Int 7 /\
  ~ (2 <= 7 <= 4).
Proof. repeat split; lia. Qed.

(** ** The composite score *)

Lemma friction_total_on_text {E : Engine} (t : obj) :
  truthy (get t "description") = false \/ is_string (get t "description") = true ->
  is_Some (Persisted.frictionScore t) /\ is_Some (Rescore.frictionScore t).
Proof.
  intros Hd. unfold Rescore.frictionScore, Persisted.frictionScore, js_or.
  destruct Hd as [Hd | Hd].
  - rewrite Hd. destruct (get t "friction_score"); simpl; eauto.
  - destruct (get t "description") as [| |b|n|s|tv]; try done.
    destruct (truthy (JStr s)); destruct (get t "friction_score"); simpl; eauto.
Qed.

Lemma scores_total_on_text {E : Engine} nowU nowR (t : obj) :
  truthy (get t "description") = false \/ is_string (get t "description") = true ->
  is_Some (Persisted.computeScores nowU nowR t) /\
  is_Some (Rescore.computeTonyScore nowU nowR t).
Proof.
  intros Hd. destruct (friction_total_on_text t Hd) as [[f Hf] [g Hg]].
  unfold Persisted.computeScores, Rescore.computeTonyScore.
  rewrite Hf, Hg. simpl. eauto.
Qed.

(** C5.  Whatever the task, the scores that come back satisfy
    score = L + U + R − F, with no clamping, each sub-score being the value
    of its own scoring function; and scores do come back whenever the
    description is absent or a string.  For priority 1, bucket "today", no
    due date and an empty description they are 5, 3, 3, 2 and 9. *)
Theorem composite_is_sum {E : Engine} (nowU nowR : Z) (t : obj) :
  (forall m,
     Persisted.computeScores nowU nowR t = Some m \/
     Rescore.computeTonyScore nowU nowR t = Some m ->
     Metrics.score m = composite m) /\
  (forall m, Persisted.computeScores nowU nowR t = Some m ->
     Metrics.L m = Persisted.leverageScore t /\
     Metrics.U m = Int (Persisted.urgencyScore nowU t) /\
     Metrics.R m = Int (Persisted.riskScore nowR t) /\
     Some (Metrics.F m) = Int <$> Persisted.frictionScore t) /\
  (forall m, Rescore.computeTonyScore nowU nowR t = Some m ->
     let bucket := js_or (get t "bucket") (JStr "later") in
     Metrics.L m = Rescore.leverageScore t /\
     Metrics.U m = Int (Rescore.urgencyScore nowU t bucket) /\
     Metrics.R m = Rescore.riskScore nowR t bucket /\
     Some (Metrics.F m) = Rescore.frictionScore t) /\
  (truthy (get t "description") = false \/
   is_string (get t "description") = true ->
     is_Some (Persisted.computeScores nowU nowR t) /\
     is_Some (Rescore.computeTonyScore nowU nowR t)) /\
  Persisted.computeScores nowU nowR worked_example
    = Some (Metrics.mk (Int 5) (Int 3) (Int 3) (Int 2) (Int 9)) /\
  Rescore.computeTonyScore nowU nowR worked_example
    = Some (Metrics.mk (Int 5) (Int 3) (Int 3) (Int 2) (Int 9)).
Proof.
  repeat apply conj; try reflexivity.
  - intros m [Hm | Hm].
    + unfold Persisted.computeScores in Hm.
      destruct (Persisted.frictionScore t); simpl in Hm; [|done].
      by injection Hm as <-.
    + unfold Rescore.computeTonyScore in Hm.
      destruct (Rescore.frictionScore t); simpl in Hm; [|done].
      by injection Hm as <-.
  - intros m Hm. unfold Persisted.computeScores in Hm.
    destruct (Persisted.frictionScore t); simpl in Hm; [|done].
    by injection Hm as <-.
  - intros m Hm. unfold Rescore.computeTonyScore in Hm.
    destruct (Rescore.frictionScore t); simpl in Hm; [|done].
    by injection Hm as <-.
  - apply scores_total_on_text.
Qed.

(** The worked example, through the theorem. *)
Lemma composite_is_sum_witness :
  let m := Metrics.mk (Int 5) (Int 3) (Int 3) (Int 2) (Int 9) in
  Persisted.computeScores (H:=sample_engine) 0 0 worked_example = Some m /\
  Metrics.score m = composite m.
Proof.
  intros m. split; [reflexivity|].
  destruct (composite_is_sum (E:=sample_engine) 0 0 worked_example) as (Hs & _).
  apply Hs. by left.
Defined.

(** ** Re-scoring on read *)

(** What [computeTonyScore] reads of a row delivered by the store. *)
Lemma row_fields (r : Store.row) :
  let t := Store.to_obj_scored r in
  get t "priority" = JNum (Int (Store.priority r)) /\
  get t "bucket" = JStr (Store.bucket r) /\
  get t "due_date" = Store.of_opt_time (Store.due_date r) /\
  get t "description" = Store.of_opt_text (Store.description r) /\
  get t "leverage_score" = Store.of_opt_int (Store.leverage_score r) /\
  get t "risk_score" = Store.of_opt_int (Store.risk_score r) /\
  get t "friction_score" = Store.of_opt_int (Store.friction_score r).
Proof. repeat split. Qed.

(** Scoring never throws on a row of the store: its description is text or
    NULL. *)
Lemma computeTonyScore_total_on_rows {E : Engine} a b (r : Store.row) :
  is_Some (Rescore.computeTonyScore a b (Store.to_obj_scored r)).
Proof.
  apply scores_total_on_text.
  destruct (row_fields r) as (_ & _ & _ & -> & _).
  destruct (Store.description r); simpl; eauto.
Qed.

(** Without numeric stored scores, only the four current fields matter. *)
Lemma computeTonyScore_current_fields {E : Engine} a b (t : obj) :
  is_number (get t "leverage_score") = false ->
  is_number (get t "risk_score") = false ->
  is_number (get t "friction_score") = false ->
  Rescore.computeTonyScore a b t = Rescore.computeTonyScore a b (current_fields t).
Proof.
  intros HL HR HF.
  unfold Rescore.computeTonyScore, Rescore.leverageScore, Rescore.riskScore,
    Rescore.frictionScore, Rescore.urgencyScore.
  change (get (current_fields t) "leverage_score") with JUndefined.
  change (get (current_fields t) "risk_score") with JUndefined.
  change (get (current_fields t) "friction_score") with JUndefined.
  change (get (current_fields t) "priority") with (get t "priority").
  change (get (current_fields t) "bucket") with (get t "bucket").
  change (get (current_fields t) "due_date") with (get t "due_date").
  change (get (current_fields t) "description") with (get t "description").
  destruct (get t "leverage_score"); try done;
    destruct (get t "risk_score"); try done;
    destruct (get t "friction_score"); done.
Qed.

Lemma withScores_lookup {E : Engine} clk (rows out : list obj) :
  withScores clk rows = Some out ->
  forall i t, rows !! i = Some t ->
    exists m, Rescore.computeTonyScore (clk i).1 (clk i).2 t = Some m /\
              out !! i = Some (Metrics.to_obj m ∪ t).
Proof.
  unfold withScores. intros Hout i t Hi.
  apply mapM_Some in Hout.
  assert (imap (fun i t => (i, t)) rows !! i = Some (i, t)) as Hp.
  { by rewrite list_lookup_imap, Hi. }
  destruct (Forall2_lookup_l _ _ _ _ _ Hout Hp) as (o & Ho & Hm).
  simpl in Hm.
  destruct (Rescore.computeTonyScore (clk i).1 (clk i).2 t) as [m|]; [|done].
  exists m. split; [done|]. simpl in Hm. congruence.
Qed.

Lemma withScores_total {E : Engine} clk (rows : list obj) :
  (forall a b t, t ∈ rows -> is_Some (Rescore.computeTonyScore a b t)) ->
  exists out, withScores clk rows = Some out /\ length out = length rows.
Proof.
  intros Htot.
  destruct (withScores clk rows) as [out|] eqn:Hw.
  - exists out. split; [done|].
    unfold withScores in Hw. apply length_mapM in Hw.
    by rewrite length_imap in Hw.
  - exfalso. unfold withScores in Hw. apply mapM_None in Hw.
    apply Exists_exists in Hw as ([i t] & Hin & Hnone).
    apply list_elem_of_lookup in Hin as [j Hj].
    rewrite list_lookup_imap in Hj.
    destruct (rows !! j) as [t'|] eqn:Hr; [|done].
    simpl in Hj. injection Hj as <- <-.
    destruct (Htot (clk j).1 (clk j).2 t') as [m Hm].
    { eapply list_elem_of_lookup_2; eauto. }
    simpl in Hnone. by rewrite Hm in Hnone.
Qed.

Lemma reported_metrics (m : Metrics.t) (t : obj) :
  let o : obj := Metrics.to_obj m ∪ t in
  get o "L" = JNum (Metrics.L m) /\ get o "U" = JNum (Metrics.U m) /\
  get o "R" = JNum (Metrics.R m) /\ get o "F" = JNum (Metrics.F m) /\
  get o "score" = JNum (Metrics.score m) /\
  (forall k, k <> "L" -> k <> "U" -> k <> "R" -> k <> "F" -> k <> "score" ->
     get o k = get t k).
Proof.
  intros o. unfold o, get, Metrics.to_obj.
  repeat split.
  - erewrite lookup_union_Some_l; [done|]. by simplify_map_eq.
  - erewrite lookup_union_Some_l; [done|]. by simplify_map_eq.
  - erewrite lookup_union_Some_l; [done|]. by simplify_map_eq.
  - erewrite lookup_union_Some_l; [done|]. by simplify_map_eq.
  - erewrite lookup_union_Some_l; [done|]. by simplify_map_eq.
  - intros k HL HU HR HF Hs. rewrite lookup_union_r; [done|].
    by simplify_map_eq.
Qed.





(** ** Listing *)

Lemma insert_by_perm cmp x l : Permutation (x :: l) (Store.insert_by cmp x l).
Proof.
  induction l as [|y l IH]; simpl; [done|].
  destruct (cmp x y); try done.
  rewrite perm_swap. by constructor.
Qed.

(** [ORDER BY] returns every row, once. *)
Lemma order_by_perm cmp l : Permutation l (Store.order_by cmp l).
Proof.
  induction l as [|x l IH]; simpl; [done|].
  rewrite <- insert_by_perm. by constructor.
Qed.

(** C7, on the code.  The list of the re-scoring revision compares the
    [bucket] column as text, so of two tasks with the same completion
    state a "backlog" task is listed before a "today" task, whichever way
    they lie in the table; the SQLite revision ranks "today" first.  The
    list of the persisting revision follows [created_at] alone. *)
Theorem list_orders_buckets_as_text (a b : Store.row) :
  Store.status a = Store.status b ->
  Store.bucket a = "today" -> Store.bucket b = "backlog" ->
  Store.order_by RescoreService.list_order [a; b] = [b; a] /\
  Store.order_by RescoreService.list_order [b; a] = [b; a] /\
  Sqlite.bucket_rank (Store.bucket a) < Sqlite.bucket_rank (Store.bucket b) /\
  (Store.created_at a < Store.created_at b ->
   Store.order_by PersistedService.list_order [a; b] = [a; b] /\
   Store.order_by PersistedService.list_order [b; a] = [a; b]).
Proof.
  intros Hs Ha Hb.
  assert (RescoreService.list_order a b = Gt) as Hab.
  { unfold RescoreService.list_order. rewrite Hs, Ha, Hb.
    by destruct (String.eqb (Store.status b) "done"). }
  assert (RescoreService.list_order b a = Lt) as Hba.
  { unfold RescoreService.list_order. rewrite Hs, Ha, Hb.
    by destruct (String.eqb (Store.status b) "done"). }
  repeat split.
  - simpl. by rewrite Hab.
  - simpl. by rewrite Hba.
  - by rewrite Ha, Hb.
  - simpl. unfold PersistedService.list_order.
    by rewrite (proj2 (Z.compare_lt_iff _ _) H).
  - simpl. unfold PersistedService.list_order.
    by rewrite (proj2 (Z.compare_gt_iff _ _) H).
Qed.

(** The table holds "water the plants" (today) and then "sort old photos"
    (backlog); the list returns the backlog task first. *)
Lemma list_orders_buckets_as_text_witness :
  Store.order_by RescoreService.list_order [row_today; row_backlog]
  = [row_backlog; row_today].
Proof.
  exact (proj1 (list_orders_buckets_as_text row_today row_backlog
                  eq_refl eq_refl eq_refl)).
Defined.

(** The same through the handler: the titles of [GET /tasks], in the order
    of the response. *)
Lemma get_tasks_lists_backlog_first :
  match body (RescoreService.get_tasks (H:=sample_engine) (fun _ => (0, 0))
                (Store.mk_db [row_today; row_backlog] 3)) with
  | PTasks ts => (fun o => get o "title") <$> ts
  | _ => []
  end = [JStr "sort old photos"; JStr "water the plants"].
Proof. reflexivity. Qed.

(** ** Creating a task *)

Lemma truthy_nonempty s : s <> "" -> truthy (JStr s) = true.
Proof. intros Hs. simpl. by destruct (String.eqb_spec s ""). Qed.

(** The row that a creation with nothing but a title [s] inserts. *)
Lemma rescored_default_row {E : Engine} tk i s now :
  let r := Store.mk_row i s None None "open" "later" 3
             None None None None None None now now in
  RescoreService.rescored tk r
  = Some (Metrics.to_obj (Metrics.mk (Int 3) (Int 1) (Int 2) (Int 2) (Int 4))
          ∪ Store.to_obj_scored r).
Proof. reflexivity. Qed.

(** C8.  A creation whose title is missing, empty or not a string is
    answered with status 400 and leaves the table as it was.  A creation
    that carries nothing but a non-empty title inserts one row with status
    "open", bucket "later" and priority 3, and answers 201 with it. *)
Theorem create_validates_and_defaults {E : Engine} {P : Store.Pg}
    (tk : ticks) (d : Store.db) :
  (forall body : obj,
     truthy (get body "title") = false \/ is_string (get body "title") = false ->
     RescoreService.post_tasks tk body d
       = (d, mk_response 400 (PError "title is required")) /\
     PersistedService.post_tasks tk body d
       = (d, mk_response 400 (PError "title is required"))) /\
  (forall s, s <> "" -> Store.nul_free s = true ->
     let body : obj := {[ "title" := JStr s ]} in
     (exists r o,
        RescoreService.post_tasks tk body d
          = (Store.mk_db (Store.rows d ++ [r]) (Store.next_id d + 1),
             mk_response 201 (PTask o)) /\
        Store.title r = s /\ Store.status r = "open" /\
        Store.bucket r = "later" /\ Store.priority r = 3 /\
        get o "title" = JStr s /\ get o "status" = JStr "open" /\
        get o "bucket" = JStr "later" /\ get o "priority" = JNum (Int 3)) /\
     (exists r o,
        PersistedService.post_tasks tk body d
          = (Store.mk_db (Store.rows d ++ [r]) (Store.next_id d + 1),
             mk_response 201 (PTask o)) /\
        Store.title r = s /\ Store.status r = "open" /\
        Store.bucket r = "later" /\ Store.priority r = 3 /\
        get o "title" = JStr s /\ get o "status" = JStr "open" /\
        get o "bucket" = JStr "later" /\ get o "priority" = JNum (Int 3))).
Proof.
  split.
  - intros body Hbad.
    assert (negb (truthy (get body "title")) || negb (is_string (get body "title"))
            = true) as Hrej.
    { destruct Hbad as [-> | ->]; [done | by rewrite orb_true_r]. }
    unfold RescoreService.post_tasks, PersistedService.post_tasks.
    by rewrite Hrej.
  - intros s Hs Hnul body.
    assert (Hopen : Store.pg_text_in (JStr "open") = Some "open")
      by (by apply Store.pg_text_in_str).
    assert (Hlater : Store.pg_text_in (JStr "later") = Some "later")
      by (by apply Store.pg_text_in_str).
    assert (Hint : forall z, 1 <= z <= 5 ->
              Store.pg_int4_in (JNum (Int z)) = Some z)
      by (intros z Hz; apply Store.pg_int4_in_int; lia).
    split.
    + eexists _, _.
      unfold RescoreService.post_tasks.
      change (get body "title") with (JStr s).
      change (get_default body "description" JNull) with JNull.
      change (get_default body "area" JNull) with JNull.
      change (get_default body "bucket" (JStr "later")) with (JStr "later").
      change (get_default body "status" (JStr "open")) with (JStr "open").
      change (get_default body "priority" (JNum (Int 3))) with (JNum (Int 3)).
      change (get_default body "due_date" JNull) with JNull.
      rewrite (truthy_nonempty s Hs).
      unfold RescoreService.insert_stmt, Store.not_null, Store.nullable.
      cbn [Store.is_nullish].
      rewrite (Store.pg_text_in_str s Hnul), Hopen, Hlater, (Hint 3) by lia.
      cbn [mbind option_bind fmap option_fmap option_map Store.append].
      rewrite rescored_default_row.
      repeat split.
    + eexists _, _.
      unfold PersistedService.post_tasks.
      change (get body "title") with (JStr s).
      change (get_default body "description" JNull) with JNull.
      change (get_default body "area" JNull) with JNull.
      change (get_default body "bucket" (JStr "later")) with (JStr "later").
      change (get_default body "status" (JStr "open")) with (JStr "open").
      change (get_default body "priority" (JNum (Int 3))) with (JNum (Int 3)).
      change (get_default body "due_date" JNull) with JNull.
      rewrite (truthy_nonempty s Hs).
      change (Persisted.computeScores (at_urgency tk) (at_risk tk)
                (PersistedService.snapshot (JStr s) JNull (JStr "later")
                   (JNum (Int 3)) JNull))
        with (Some (Metrics.mk (Int 3) (Int 1) (Int 2) (Int 2) (Int 4))).
      unfold PersistedService.insert_stmt, Store.not_null, Store.nullable.
      cbn [Store.is_nullish Metrics.L Metrics.U Metrics.R Metrics.F].
      rewrite (Store.pg_text_in_str s Hnul), Hopen, Hlater.
      rewrite !Hint by lia.
      cbn [mbind option_bind fmap option_fmap option_map Store.append].
      repeat split.
Qed.

(** "buy milk" posted to an empty table, and a post without a title. *)
Lemma create_validates_and_defaults_witness :
  let d := Store.mk_db [] 1 in
  (RescoreService.post_tasks (H:=sample_engine) (H0:=sample_pg) noon ∅ d).2
    = mk_response 400 (PError "title is required") /\
  exists r o,
    PersistedService.post_tasks (H:=sample_engine) (H0:=sample_pg) noon
      {[ "title" := JStr "buy milk" ]} d
    = (Store.mk_db [r] 2, mk_response 201 (PTask o)) /\
    Store.status r = "open" /\ Store.bucket r = "later" /\ Store.priority r = 3.
Proof.
  intros d.
  destruct (create_validates_and_defaults (E:=sample_engine) (P:=sample_pg) noon d)
    as [Hrej Hdef].
  split.
  - destruct (Hrej ∅ ltac:(left; reflexivity)) as [-> _]. reflexivity.
  - destruct (Hdef "buy milk" ltac:(done) eq_refl)
      as [_ (r & o & Hpost & _ & Hst & Hb & Hp & _)].
    exists r, o. repeat split; assumption.
Defined.

(** ** Brain dump *)

Lemma withScores_one {E : Engine} clk (t : obj) :
  withScores clk [t]
  = (m ← Rescore.computeTonyScore (clk 0%nat).1 (clk 0%nat).2 t;
     Some [Metrics.to_obj m ∪ t]).
Proof.
  unfold withScores. cbn [imap mapM].
  destruct (Rescore.computeTonyScore (clk 0%nat).1 (clk 0%nat).2 t); reflexivity.
Qed.

Lemma rescored_total {E : Engine} tk (r : Store.row) :
  is_Some (RescoreService.rescored tk r).
Proof.
  unfold RescoreService.rescored. rewrite withScores_one.
  destruct (computeTonyScore_total_on_rows (at_urgency tk) (at_risk tk) r)
    as [m Hm].
  cbn [fst snd]. rewrite Hm. by eexists.
Qed.

Lemma bind_Some_inv {A B} (o : option A) (f : A -> option B) (b : B) :
  o ≫= f = Some b -> exists a, o = Some a /\ f a = Some b.
Proof. destruct o; simpl; [eauto | done]. Qed.





Section Loops.
Context {E : Engine} {P : Store.Pg}.
Variables (clk : nat -> ticks) (db da : JsVal).





End Loops.





(** * Further properties of the scoring engine *)

Lemma rescore_urgency_range {E : Engine} (now : Z) (t : obj) (bucket : JsVal) :
  1 <= Rescore.urgencyScore now t bucket <= 5.
Proof.
  unfold Rescore.urgencyScore.
  repeat match goal with
         | |- context [if ?b then _ else _] => destruct b
         | |- context [match ?o with Some _ => _ | None => _ end] => destruct o
         end; lia.
Qed.

(** X1.  For a row of the store whose stored [leverage_score],
    [risk_score] and [friction_score] are NULL, [computeTonyScore] always
    returns, and returns integers: leverage in 1..5, urgency in 1..5, risk
    in 2..4, friction in 1..3, and as composite their signed sum, in
    1..13. *)
Theorem rescore_row_scores_in_range {E : Engine} (nowU nowR : Z) (r : Store.row) :
  unscored r ->
  exists l u k f,
    Rescore.computeTonyScore nowU nowR (Store.to_obj_scored r)
    = Some (Metrics.mk (Int l) (Int u) (Int k) (Int f) (Int (l + u + k - f))) /\
    1 <= l <= 5 /\ 1 <= u <= 5 /\ 2 <= k <= 4 /\ 1 <= f <= 3 /\
    1 <= l + u + k - f <= 13.
Proof.
  intros (HnL & HnR & HnF).
  destruct (row_fields r) as (Hp & Hb & Hd & Hde & HsL & HsR & HsF).
  set (t := Store.to_obj_scored r) in *. clearbody t.
  rewrite HnL in HsL. rewrite HnR in HsR. rewrite HnF in HsF.
  unfold Rescore.computeTonyScore, Rescore.leverageScore, Rescore.riskScore,
    Rescore.frictionScore.
  rewrite HsL, HsR, HsF, Hp, Hde. cbn [Store.of_opt_int].
  set (bucket := js_or (get t "bucket") (JStr "later")).
  pose proof (rescore_urgency_range nowU t bucket) as HU.
  pose proof (rescore_urgency_range nowR t bucket) as HR.
  set (u := Rescore.urgencyScore nowU t bucket) in *.
  set (u' := Rescore.urgencyScore nowR t bucket) in *.
  assert (exists f, 1 <= f <= 3 /\
            (desc ← call_toLowerCase (js_or (Store.of_opt_text (Store.description r))
                                            (JStr ""));
             Some (if negb (truthy (JStr desc)) then Int 2
                   else if includes desc "tax" || includes desc "accounting"
                           || includes desc "legal" then Int 3
                   else if includes desc "call" || includes desc "email" then Int 1
                   else Int 2)) = Some (Int f)) as (f & Hf & ->).
  { unfold js_or. destruct (Store.description r) as [s|]; simpl.
    - destruct (negb (String.eqb s "")); simpl;
        repeat match goal with |- context [if ?b then _ else _] => destruct b end;
        eexists; (split; [|reflexivity]); lia.
    - exists 2. split; [lia | done]. }
  cbn [mbind option_bind]. cbn [Math_max Math_min num_sub num_add].
  destruct (Z.leb_spec 4 u'); [|destruct (Z.eqb_spec u' 3)];
    cbn [num_add num_sub];
    eexists _, u, _, f; (split; [reflexivity|]); lia.
Qed.

(** "water the plants": 3, 3, 3, 2 and 7. *)
Lemma rescore_row_scores_in_range_witness :
  exists l u k f,
    Rescore.computeTonyScore (H:=sample_engine) 0 0 (Store.to_obj_scored row_today)
    = Some (Metrics.mk (Int l) (Int u) (Int k) (Int f) (Int (l + u + k - f))) /\
    1 <= l <= 5 /\ 1 <= u <= 5 /\ 2 <= k <= 4 /\ 1 <= f <= 3 /\
    1 <= l + u + k - f <= 13.
Proof.
  apply (rescore_row_scores_in_range (E:=sample_engine) 0 0 row_today).
  by repeat split.
Defined.

Lemma persisted_leverage_clamped {E : Engine} (t : obj) :
  exists l, Persisted.leverageScore t = Int l /\ 1 <= l <= 5.
Proof.
  unfold Persisted.leverageScore. cbv zeta.
  set (p := match get t "priority" with
            | JNum n => n
            | v => parseInt (js_or v (JStr "3"))
            end).
  assert (exists z, num_or p (Int 3) = Int z) as [z ->].
  { unfold num_or, num_truthy. destruct p as [|z]; simpl; [eauto|].
    destruct (z =? 0); simpl; eauto. }
  simpl. eexists. split; [done|]. lia.
Qed.

Lemma persisted_risk_range {E : Engine} now (t : obj) :
  2 <= Persisted.riskScore now t <= 4.
Proof.
  unfold Persisted.riskScore. cbv zeta.
  destruct (4 <=? _); [lia|]. destruct (_ =? 3); lia.
Qed.

Lemma persisted_friction_range {E : Engine} (t : obj) f :
  Persisted.frictionScore t = Some f -> 1 <= f <= 3.
Proof.
  unfold Persisted.frictionScore. intros Hf.
  destruct (call_toLowerCase _); simpl in Hf; [|done].
  injection Hf as <-.
  repeat match goal with |- context [if ?b then _ else _] => destruct b end; lia.
Qed.

Lemma persisted_scores_shape {E : Engine} nowU nowR (t : obj) m :
  Persisted.computeScores nowU nowR t = Some m ->
  exists l u r f,
    m = Metrics.mk (Int l) (Int u) (Int r) (Int f) (Int (l + u + r - f)) /\
    1 <= l <= 5 /\ 1 <= u <= 5 /\ 2 <= r <= 4 /\ 1 <= f <= 3.
Proof.
  unfold Persisted.computeScores. intros Hm.
  destruct (Persisted.frictionScore t) as [f|] eqn:Hf; [|done].
  cbn [mbind option_bind] in Hm. injection Hm as <-.
  destruct (persisted_leverage_clamped t) as (l & -> & Hl).
  pose proof (urgency_range nowU t) as Hu.
  pose proof (persisted_risk_range nowR t) as Hr.
  pose proof (persisted_friction_range t f Hf) as Hfr.
  by exists l, (Persisted.urgencyScore nowU t), (Persisted.riskScore nowR t), f.
Qed.

(** X2.  In the persisting revision, for a task whose priority is an
    integer whenever it is a number (text, null and absent priorities are
    all allowed), every score that [computeScores] returns is an integer,
    never NaN: leverage in 1..5, urgency in 1..5, risk in 2..4, friction in
    1..3, and the composite, their signed sum, in 1..13.  A fractional
    priority is left out: it would give a fractional leverage. *)
Theorem persisted_scores_in_range {E : Engine} (nowU nowR : Z) (t : obj)
    (m : Metrics.t) :
  (forall n, get t "priority" = JNum n -> Number_isInteger n = true) ->
  Persisted.computeScores nowU nowR t = Some m ->
  exists l u r f,
    m = Metrics.mk (Int l) (Int u) (Int r) (Int f) (Int (l + u + r - f)) /\
    1 <= l <= 5 /\ 1 <= u <= 5 /\ 2 <= r <= 4 /\ 1 <= f <= 3 /\
    1 <= l + u + r - f <= 13.
Proof.
  intros _ Hm.
  destruct (persisted_scores_shape nowU nowR t m Hm)
    as (l & u & r & f & -> & Hl & Hu & Hr & Hf).
  exists l, u, r, f. split; [done|]. repeat split; lia.
Qed.

(** A task of priority 7 in the bucket "today", without a due date: the
    priority is clamped to 5 and leverage is 1. *)
Lemma persisted_scores_in_range_witness :
  let t : obj := {[ "priority" := JNum (Int 7); "bucket" := JStr "today" ]} in
  (forall n, get t "priority" = JNum n -> Number_isInteger n = true) /\
  Persisted.computeScores (H:=sample_engine) 0 0 t
    = Some (Metrics.mk (Int 1) (Int 3) (Int 3) (Int 2) (Int 5)) /\
  exists l u r f,
    Metrics.mk (Int 1) (Int 3) (Int 3) (Int 2) (Int 5)
      = Metrics.mk (Int l) (Int u) (Int r) (Int f) (Int (l + u + r - f)) /\
    1 <= l <= 5 /\ 1 <= u <= 5 /\ 2 <= r <= 4 /\ 1 <= f <= 3 /\
    1 <= l + u + r - f <= 13.
Proof.
  intros t.
  assert (forall n, get t "priority" = JNum n -> Number_isInteger n = true) as Hint.
  { intros n Hn. vm_compute in Hn. by injection Hn as <-. }
  split; [exact Hint|]. split; [reflexivity|].
  exact (persisted_scores_in_range (E:=sample_engine) 0 0 t _ Hint eq_refl).
Defined.

Lemma lower_ascii_idem (c : ascii) : lower_ascii (lower_ascii c) = lower_ascii c.
Proof. destruct c as [[] [] [] [] [] [] [] []]; reflexivity. Qed.

Lemma toLowerCase_idem (s : string) : toLowerCase (toLowerCase s) = toLowerCase s.
Proof.
  induction s as [|c s IH]; [done|]. simpl. by rewrite lower_ascii_idem, IH.
Qed.

Lemma toLowerCase_empty (s : string) : toLowerCase s = "" <-> s = "".
Proof. by destruct s. Qed.

(** X3.  Friction looks at the description only through its lower-cased
    text: two descriptions that differ in letter case alone give the same
    friction, in both revisions. *)
Theorem friction_ignores_case {E : Engine} (t : obj) (s s' : string) :
  toLowerCase s = toLowerCase s' ->
  Persisted.frictionScore (<["description" := JStr s]> t)
    = Persisted.frictionScore (<["description" := JStr s']> t) /\
  Rescore.frictionScore (<["description" := JStr s]> t)
    = Rescore.frictionScore (<["description" := JStr s']> t).
Proof.
  intros Hs.
  assert (Hempty : String.eqb s "" = String.eqb s' "").
  { destruct (String.eqb_spec s "") as [->|Hn];
      destruct (String.eqb_spec s' "") as [->|Hn']; try done.
    - exfalso. apply Hn'. apply toLowerCase_empty. by rewrite <- Hs.
    - exfalso. apply Hn. apply toLowerCase_empty. by rewrite Hs. }
  unfold Persisted.frictionScore, Rescore.frictionScore, js_or, get.
  rewrite !lookup_insert_eq, !lookup_insert_ne by done.
  simpl. rewrite <- Hempty.
  destruct (String.eqb s ""); simpl; by rewrite ?Hs.
Qed.

(** "CALL the Tax office" and "call the tax OFFICE" score alike. *)
Lemma friction_ignores_case_witness :
  Persisted.frictionScore (<["description" := JStr "CALL the Tax office"]> ∅)
  = Persisted.frictionScore (<["description" := JStr "call the tax OFFICE"]> ∅).
Proof.
  exact (proj1 (friction_ignores_case (E:=sample_engine) ∅
                  "CALL the Tax office" "call the tax OFFICE" eq_refl)).
Defined.

Lemma persisted_urgency_later_due {E : Engine} now (t : obj) v1 v2 d1 d2 :
  truthy v1 = true -> truthy v2 = true ->
  new_Date v1 = Some d1 -> new_Date v2 = Some d2 -> d1 <= d2 ->
  Persisted.urgencyScore now (<["due_date" := v2]> t)
  <= Persisted.urgencyScore now (<["due_date" := v1]> t).
Proof.
  intros T1 T2 P1 P2 Hle.
  unfold Persisted.urgencyScore. cbv zeta.
  unfold get. rewrite !lookup_insert_eq. simpl.
  rewrite T1, T2, P1, P2. simpl.
  set (h1 := diffHours d1 now). set (h2 := diffHours d2 now).
  urgency_bands h1; urgency_bands h2; try lia; exfalso;
    unfold h1, h2 in *; hours_lia.
Qed.

Lemma risk_table_mono (u1 u2 : Z) :
  u2 <= u1 ->
  (if 4 <=? u2 then 4 else if u2 =? 3 then 3 else 2)
  <= (if 4 <=? u1 then 4 else if u1 =? 3 then 3 else 2).
Proof.
  intros Hu.
  destruct (Z.leb_spec 4 u2); destruct (Z.leb_spec 4 u1);
    destruct (Z.eqb_spec u2 3); destruct (Z.eqb_spec u1 3); lia.
Qed.

Lemma persisted_other_fields {E : Engine} k v (t : obj) :
  k <> "priority" -> k <> "description" ->
  Persisted.leverageScore (<[k := v]> t) = Persisted.leverageScore t /\
  Persisted.frictionScore (<[k := v]> t) = Persisted.frictionScore t.
Proof.
  intros Hp Hd. unfold Persisted.leverageScore, Persisted.frictionScore, get.
  by rewrite !lookup_insert_ne.
Qed.

(** X4.  In the persisting revision, with the clock readings and every
    other field fixed, moving a due date that is present and readable to an
    earlier instant never lowers the composite score: urgency and risk can
    only grow, leverage and friction stay. *)
Theorem persisted_score_antitone_in_due {E : Engine} (nowU nowR : Z) (t : obj)
    (v1 v2 : JsVal) (d1 d2 : Z) (m1 m2 : Metrics.t) :
  truthy v1 = true -> truthy v2 = true ->
  new_Date v1 = Some d1 -> new_Date v2 = Some d2 -> d1 <= d2 ->
  Persisted.computeScores nowU nowR (<["due_date" := v1]> t) = Some m1 ->
  Persisted.computeScores nowU nowR (<["due_date" := v2]> t) = Some m2 ->
  exists s1 s2,
    Metrics.score m1 = Int s1 /\ Metrics.score m2 = Int s2 /\ s2 <= s1.
Proof.
  intros T1 T2 P1 P2 Hle H1 H2.
  pose proof (persisted_urgency_later_due nowU t v1 v2 d1 d2 T1 T2 P1 P2 Hle) as HU.
  pose proof (persisted_urgency_later_due nowR t v1 v2 d1 d2 T1 T2 P1 P2 Hle) as HR.
  apply risk_table_mono in HR.
  destruct (persisted_other_fields "due_date" v1 t) as [HL1 HF1]; [done..|].
  destruct (persisted_other_fields "due_date" v2 t) as [HL2 HF2]; [done..|].
  unfold Persisted.computeScores in H1, H2.
  rewrite HL1, HF1 in H1. rewrite HL2, HF2 in H2.
  destruct (Persisted.frictionScore t) as [f|]; [|done].
  cbn [mbind option_bind] in H1, H2.
  destruct (persisted_leverage_clamped t) as (l & Hl & _).
  rewrite Hl in H1, H2. injection H1 as <-. injection H2 as <-.
  eexists _, _. split; [reflexivity|]. split; [reflexivity|].
  unfold Persisted.riskScore. cbv zeta. lia.
Qed.

(** A deadline thirty hours ahead against one ten hours ahead: the
    composite goes from 7 to 9. *)
Lemma persisted_score_antitone_in_due_witness :
  exists s1 s2,
    Int 9 = Int s1 /\ Int 7 = Int s2 /\ s2 <= s1.
Proof.
  exact (persisted_score_antitone_in_due (E:=sample_engine) 0 0 ∅
           (JDate (Some 36000000)) (JDate (Some 108000000)) 36000000 108000000
           (Metrics.mk (Int 3) (Int 4) (Int 4) (Int 2) (Int 9))
           (Metrics.mk (Int 3) (Int 3) (Int 3) (Int 2) (Int 7))
           eq_refl eq_refl eq_refl eq_refl ltac:(lia) eq_refl eq_refl).
Defined.

(** X5.  A numerically higher priority number never raises leverage: in the
    re-scoring revision for every pair of integer priorities (no stored
    leverage), in the persisting revision as long as the lower one is not
    0. *)
Theorem leverage_antitone_in_priority {E : Engine} (t : obj) (p1 p2 : Z) :
  p1 <= p2 ->
  (is_number (get t "leverage_score") = false ->
   exists l1 l2,
     Rescore.leverageScore (<["priority" := JNum (Int p1)]> t) = Int l1 /\
     Rescore.leverageScore (<["priority" := JNum (Int p2)]> t) = Int l2 /\
     l2 <= l1) /\
  (p1 <> 0 ->
   exists l1 l2,
     Persisted.leverageScore (<["priority" := JNum (Int p1)]> t) = Int l1 /\
     Persisted.leverageScore (<["priority" := JNum (Int p2)]> t) = Int l2 /\
     l2 <= l1).
Proof.
  intros Hle. split.
  - intros Hs. unfold Rescore.leverageScore, get.
    rewrite !lookup_insert_eq, !lookup_insert_ne by done.
    fold (get t "leverage_score").
    destruct (get t "leverage_score"); try done;
      simpl; eexists _, _; (split; [reflexivity|]); (split; [reflexivity|]); lia.
  - intros Hz. unfold Persisted.leverageScore, get.
    rewrite !lookup_insert_eq. simpl. unfold num_or, num_truthy. simpl.
    destruct (Z.eqb_spec p1 0); [done|].
    destruct (Z.eqb_spec p2 0); simpl;
      eexists _, _; (split; [reflexivity|]); (split; [reflexivity|]); lia.
Qed.

(** Priorities 1 and 4: leverage 5 and 2. *)
Lemma leverage_antitone_in_priority_witness :
  exists l1 l2,
    Persisted.leverageScore (H:=sample_engine) (<["priority" := JNum (Int 1)]> ∅) = Int l1 /\
    Persisted.leverageScore (H:=sample_engine) (<["priority" := JNum (Int 4)]> ∅) = Int l2 /\
    l2 <= l1.
Proof.
  exact (proj2 (leverage_antitone_in_priority (E:=sample_engine) ∅ 1 4 ltac:(lia))
           ltac:(lia)).
Defined.

(** * Listing *)

Section Sorting.
Variables (cmp : Store.row -> Store.row -> comparison)
          (le : Store.row -> Store.row -> Prop).
Hypothesis le_trans : forall a b c, le a b -> le b c -> le a c.
Hypothesis cmp_le : forall x y, cmp x y <> Gt -> le x y.
Hypothesis cmp_gt : forall x y, cmp x y = Gt -> le y x.

Lemma insert_by_sorted x l :
  StronglySorted le l -> StronglySorted le (Store.insert_by cmp x l).
Proof.
  induction 1 as [|y l Hl IH Hy]; simpl.
  - repeat constructor.
  - destruct (cmp x y) eqn:Hc.
    + constructor; [by constructor|]. constructor; [by apply cmp_le; rewrite Hc|].
      eapply Forall_impl; [exact Hy|]. intros z Hz.
      eapply le_trans; [|exact Hz]. apply cmp_le. by rewrite Hc.
    + constructor; [by constructor|]. constructor; [by apply cmp_le; rewrite Hc|].
      eapply Forall_impl; [exact Hy|]. intros z Hz.
      eapply le_trans; [|exact Hz]. apply cmp_le. by rewrite Hc.
    + constructor; [done|].
      rewrite <- (insert_by_perm cmp x l). constructor; [by apply cmp_gt|done].
Qed.

Lemma order_by_sorted l : StronglySorted le (Store.order_by cmp l).
Proof.
  induction l as [|x l IH]; simpl; [constructor|]. by apply insert_by_sorted.
Qed.

End Sorting.

Lemma ascii_compare_lt_trans (a b c : ascii) :
  Ascii.compare a b = Lt -> Ascii.compare b c = Lt -> Ascii.compare a c = Lt.
Proof.
  unfold Ascii.compare. rewrite !N.compare_lt_iff. lia.
Qed.

Lemma text_lt_trans (a b c : string) : text_lt a b -> text_lt b c -> text_lt a c.
Proof.
  unfold text_lt. revert b c.
  induction a as [|x a IH]; intros [|y b] [|z c]; simpl; try done.
  destruct (Ascii.compare x y) eqn:Hxy; try done;
    destruct (Ascii.compare y z) eqn:Hyz; try done.
  - apply Ascii.compare_eq_iff in Hxy, Hyz. subst.
    assert (Ascii.compare z z = Eq) as ->.
    { unfold Ascii.compare. apply N.compare_refl. }
    apply IH.
  - apply Ascii.compare_eq_iff in Hxy. subst. by rewrite Hyz.
  - apply Ascii.compare_eq_iff in Hyz. subst. by rewrite Hxy.
  - by rewrite (ascii_compare_lt_trans x y z).
Qed.

Lemma text_lt_irrefl (a : string) : ~ text_lt a a.
Proof.
  unfold text_lt. induction a as [|x a IH]; simpl; [done|].
  assert (Ascii.compare x x = Eq) as ->; [|done].
  unfold Ascii.compare. apply N.compare_refl.
Qed.

Lemma rescore_list_le_trans (a b c : Store.row) :
  rescore_list_le a b -> rescore_list_le b c -> rescore_list_le a c.
Proof.
  unfold rescore_list_le.
  intros [H1 | [E1 [H1 | [B1 [H1 | [P1 H1]]]]]]
         [H2 | [E2 [H2 | [B2 [H2 | [P2 H2]]]]]];
    try (left; lia); right; (split; [lia|]);
    try (left; rewrite ?B1, <- ?B2 in *; done);
    try (left; by eapply text_lt_trans);
    right; (split; [congruence|]);
    try (left; lia); right; split; lia.
Qed.

Lemma rescore_list_order_le (x y : Store.row) :
  RescoreService.list_order x y <> Gt -> rescore_list_le x y.
Proof.
  unfold RescoreService.list_order, rescore_list_le, done_flag, Store.thenc, text_lt.
  destruct (String.eqb (Store.status x) "done"),
           (String.eqb (Store.status y) "done"); simpl; try done;
    try (left; lia); intros Hc; right; (split; [done|]).
  all: destruct (String.compare (Store.bucket x) (Store.bucket y)) eqn:Hb;
    try done; try (by left);
    apply String.compare_eq_iff in Hb; right; (split; [done|]);
    destruct (Z.compare_spec (Store.priority x) (Store.priority y)); try done;
    try (left; lia); right; (split; [done|]);
    destruct (Z.compare_spec (RescoreService.coalesce_due x)
                (RescoreService.coalesce_due y)); try done; lia.
Qed.

Lemma rescore_list_order_gt (x y : Store.row) :
  RescoreService.list_order x y = Gt -> rescore_list_le y x.
Proof.
  unfold RescoreService.list_order, rescore_list_le, done_flag, Store.thenc, text_lt.
  destruct (String.eqb (Store.status x) "done"),
           (String.eqb (Store.status y) "done"); simpl; try done;
    try (left; lia); intros Hc; right; (split; [done|]).
  all: rewrite (String.compare_antisym (Store.bucket y) (Store.bucket x));
    destruct (String.compare (Store.bucket x) (Store.bucket y)) eqn:Hb;
    try done; try (by left);
    apply String.compare_eq_iff in Hb; right; (split; [done|]);
    destruct (Z.compare_spec (Store.priority x) (Store.priority y)); try done;
    try (left; lia); right; (split; [done|]);
    destruct (Z.compare_spec (RescoreService.coalesce_due x)
                (RescoreService.coalesce_due y)); try done; lia.
Qed.

Lemma sorted_pairwise {A} (R : A -> A -> Prop) (l : list A) i j a b :
  StronglySorted R l -> (i < j)%nat ->
  l !! i = Some a -> l !! j = Some b -> R a b.
Proof.
  intros Hs. revert i j. induction Hs as [|x l Hl IH Hx]; intros i j Hij Hi Hj.
  - done.
  - destruct j as [|j]; [lia|]. destruct i as [|i]; simpl in *.
    + injection Hi as ->. rewrite Forall_forall in Hx. apply Hx.
      eapply list_elem_of_lookup_2; eauto.
    + apply (IH i j); [lia | done | done].
Qed.

(** X6.  [GET /tasks] of the re-scoring revision never fails on a table of
    the store and lists every task exactly once: the ids in the response
    are a permutation of the ids in the table. *)
Theorem rescore_list_is_complete {E : Engine} (clk : nat -> Z * Z) (d : Store.db) :
  exists out,
    RescoreService.get_tasks clk d = mk_response 200 (PTasks out) /\
    Permutation ((fun o => get o "id") <$> out)
                ((fun r => JNum (Int (Store.id r))) <$> Store.rows d).
Proof.
  unfold RescoreService.get_tasks.
  set (sorted := Store.order_by RescoreService.list_order (Store.rows d)).
  destruct (withScores_total clk (Store.to_obj_scored <$> sorted))
    as (out & Hout & Hlen).
  { intros a b t Ht. apply list_elem_of_fmap in Ht as (r & -> & _).
    apply computeTonyScore_total_on_rows. }
  exists out. rewrite Hout. split; [done|].
  rewrite (order_by_perm RescoreService.list_order (Store.rows d)).
  fold sorted.
  assert (((fun o => get o "id") <$> out)
          = ((fun r => JNum (Int (Store.id r))) <$> sorted)) as ->; [|done].
  rewrite length_fmap in Hlen.
  apply list_eq. intros i. rewrite !list_lookup_fmap.
  destruct (sorted !! i) as [r|] eqn:Hr.
  - destruct (withScores_lookup clk _ out Hout i (Store.to_obj_scored r))
      as (m & _ & ->).
    { by rewrite list_lookup_fmap, Hr. }
    destruct (reported_metrics m (Store.to_obj_scored r)) as (_ & _ & _ & _ & _ & Hk).
    cbn [fmap option_fmap option_map]. by rewrite Hk.
  - apply lookup_ge_None in Hr. rewrite (lookup_ge_None_2 out i) by lia. done.
Qed.

Lemma rescore_order_sorted (l : list Store.row) :
  StronglySorted rescore_list_le (Store.order_by RescoreService.list_order l).
Proof.
  apply order_by_sorted.
  - apply rescore_list_le_trans.
  - apply rescore_list_order_le.
  - apply rescore_list_order_gt.
Qed.

Lemma rescore_done_not_before (a b : Store.row) :
  rescore_list_le a b -> Store.status a = "done" -> Store.status b = "done".
Proof.
  unfold rescore_list_le, done_flag. intros Hle Hd. rewrite Hd in Hle.
  destruct (String.eqb_spec (Store.status b) "done"); [done|].
  simpl in Hle. lia.
Qed.

(** X7.  The rows that [GET /tasks] of the re-scoring revision selects are
    sorted by the key of its ORDER BY: done flag, bucket name as text,
    priority, due date with NULL as 9999-12-31.  So a task that is done is
    never listed before one that is not, and among tasks of the same state
    and the same bucket a smaller priority number is never listed later. *)
Theorem rescore_list_sorted (l : list Store.row) :
  let sorted := Store.order_by RescoreService.list_order l in
  StronglySorted rescore_list_le sorted /\
  forall i j a b, (i < j)%nat -> sorted !! i = Some a -> sorted !! j = Some b ->
    (Store.status a = "done" -> Store.status b = "done") /\
    (done_flag a = done_flag b -> Store.bucket a = Store.bucket b ->
       Store.priority a <= Store.priority b).
Proof.
  intros sorted.
  pose proof (rescore_order_sorted l) as Hs. fold sorted in Hs.
  split; [done|]. intros i j a b Hij Ha Hb.
  pose proof (sorted_pairwise _ _ _ _ _ _ Hs Hij Ha Hb) as Hle.
  split; [by apply rescore_done_not_before|].
  unfold rescore_list_le in Hle.
  intros Hf Hbk. destruct Hle as [Hle | [_ [Hle | [_ Hle]]]]; [lia| |lia].
  rewrite Hbk in Hle. by apply text_lt_irrefl in Hle.
Qed.

(** X8.  [GET /tasks] of the persisting revision answers 200 with every row
    of the table exactly once, oldest [created_at] first. *)
Theorem persisted_list_by_creation (d : Store.db) :
  exists sorted,
    PersistedService.get_tasks d
      = mk_response 200 (PTasks (Store.to_obj <$> sorted)) /\
    Permutation (Store.rows d) sorted /\
    StronglySorted (fun a b => Store.created_at a <= Store.created_at b) sorted.
Proof.
  exists (Store.order_by PersistedService.list_order (Store.rows d)).
  split; [done|]. split; [apply order_by_perm|].
  apply order_by_sorted; unfold PersistedService.list_order.
  - intros a b c. lia.
  - intros x y Hc. destruct (Z.compare_spec (Store.created_at x) (Store.created_at y));
      try done; lia.
  - intros x y Hc. apply Z.compare_gt_iff in Hc. lia.
Qed.

(** * Completing and deleting *)

Lemma filter_id_nil (k : Z) (l : list Store.row) :
  Forall (fun r => Store.id r <> k) l ->
  filter (fun r => Store.id r = k) l = [].
Proof.
  induction 1 as [|r l Hr Hl IH]; [done|].
  by rewrite filter_cons_False.
Qed.

Lemma filter_id_all (k : Z) (l : list Store.row) :
  Forall (fun r => Store.id r <> k) l ->
  filter (fun r => Store.id r <> k) l = l.
Proof.
  induction 1 as [|r l Hr Hl IH]; [done|].
  rewrite filter_cons_True by done. by rewrite IH.
Qed.

Lemma update_done_absent now k (d : Store.db) :
  Forall (fun r => Store.id r <> k) (Store.rows d) ->
  Statements.update_done now k d = (d, []).
Proof.
  intros Hk. unfold Statements.update_done.
  rewrite (filter_id_nil k _ Hk). destruct d as [rows next]. simpl in *.
  f_equal. f_equal.
  induction Hk as [|r l Hr Hl IH]; [done|].
  rewrite fmap_cons, IH. by destruct (Z.eqb_spec (Store.id r) k).
Qed.

Lemma delete_where_absent k (d : Store.db) :
  Forall (fun r => Store.id r <> k) (Store.rows d) ->
  Statements.delete_where k d = (d, 0%nat).
Proof.
  intros Hk. unfold Statements.delete_where.
  rewrite (filter_id_nil k _ Hk), (filter_id_all k _ Hk). by destruct d.
Qed.

Lemma filter_id_present (k : Z) (l : list Store.row) r :
  r ∈ l -> Store.id r = k ->
  exists r' rest, filter (fun r => Store.id r = k) l = r' :: rest /\ Store.id r' = k.
Proof.
  intros Hin Hid.
  destruct (filter (fun r => Store.id r = k) l) as [|r' rest] eqn:Hf.
  - assert (r ∈ filter (fun r => Store.id r = k) l) as Hr
      by (by apply list_elem_of_filter).
    rewrite Hf in Hr. by apply elem_of_nil in Hr.
  - exists r', rest. split; [done|].
    assert (r' ∈ filter (fun r => Store.id r = k) l) as Hr
      by (rewrite Hf; by left).
    by apply list_elem_of_filter in Hr as [? _].
Qed.

(** X9.  Completing a task under an id that no row carries is answered
    404, and under an id that is no number 400; either way the table stays
    exactly as it was.  Both revisions. *)
Theorem complete_unknown_id {E : Engine} {P : Store.Pg}
    (tk : ticks) (param : string) (d : Store.db) :
  (ToNumber (JStr param) = NaN ->
     (RescoreRoutes.patch_complete tk param d).1 = d /\
     status_code (RescoreRoutes.patch_complete tk param d).2 = 400 /\
     (PersistedRoutes.patch_complete (at_insert tk) param d).1 = d /\
     status_code (PersistedRoutes.patch_complete (at_insert tk) param d).2 = 400) /\
  (forall k, ToNumber (JStr param) = Int k ->
     -2147483648 <= k <= 2147483647 ->
     Forall (fun r => Store.id r <> k) (Store.rows d) ->
     (RescoreRoutes.patch_complete tk param d).1 = d /\
     status_code (RescoreRoutes.patch_complete tk param d).2 = 404 /\
     (PersistedRoutes.patch_complete (at_insert tk) param d).1 = d /\
     status_code (PersistedRoutes.patch_complete (at_insert tk) param d).2 = 404).
Proof.
  split.
  - intros Hn. unfold RescoreRoutes.patch_complete, PersistedRoutes.patch_complete.
    by rewrite Hn.
  - intros k Hk Hrange Habs.
    unfold RescoreRoutes.patch_complete, PersistedRoutes.patch_complete.
    rewrite Hk. cbn [Number_isInteger negb].
    rewrite (Store.pg_int4_in_int k Hrange).
    by rewrite (update_done_absent _ k d Habs).
Qed.

(** Completing id 7 in a table that holds ids 1 and 2. *)
Lemma complete_unknown_id_witness :
  let d := Store.mk_db [row_today; row_backlog] 3 in
  (RescoreRoutes.patch_complete (H:=sample_engine) (H0:=sample_pg) noon "7" d).1 = d /\
  status_code (RescoreRoutes.patch_complete (H:=sample_engine) (H0:=sample_pg)
                 noon "7" d).2 = 404.
Proof.
  intros d.
  destruct (proj2 (complete_unknown_id (E:=sample_engine) (P:=sample_pg) noon "7" d)
              7 eq_refl ltac:(lia) ltac:(repeat constructor; done))
    as (H1 & H2 & _).
  by split.
Defined.






Lemma delete_where_rows k (d : Store.db) :
  Store.rows (Statements.delete_where k d).1
  = filter (fun r => Store.id r <> k) (Store.rows d).
Proof. reflexivity. Qed.

(** X11.  Deleting under an id that is no number is answered 400 and
    changes nothing.  Under an integer id the table afterwards is the old
    table without the rows of that id, the others in their order; when no
    row had the id the answer is 404 and the table is unchanged, otherwise
    the answer is [{ ok: true }] (re-scoring revision) or an empty 204
    (persisting revision). *)
Theorem delete_removes_the_row {E : Engine} {P : Store.Pg}
    (param : string) (d : Store.db) :
  (ToNumber (JStr param) = NaN ->
     RescoreRoutes.delete_task param d
       = (d, Json (mk_response 400 (PError "Invalid id"))) /\
     PersistedRoutes.delete_task param d
       = (d, Json (mk_response 400 (PError "invalid id")))) /\
  (forall k, ToNumber (JStr param) = Int k ->
     -2147483648 <= k <= 2147483647 ->
     let after3 := RescoreRoutes.delete_task param d in
     let after2 := PersistedRoutes.delete_task param d in
     after3.1 = after2.1 /\
     Store.rows after3.1 = filter (fun r => Store.id r <> k) (Store.rows d) /\
     Store.next_id after3.1 = Store.next_id d /\
     (Forall (fun r => Store.id r <> k) (Store.rows d) ->
        after3 = (d, Json (mk_response 404 (PError "Task not found"))) /\
        after2 = (d, Json (mk_response 404 (PError "task not found")))) /\
     (forall r0, r0 ∈ Store.rows d -> Store.id r0 = k ->
        after3.2 = OkTrue /\ after2.2 = NoContent)).
Proof.
  split.
  - intros Hn. unfold RescoreRoutes.delete_task, PersistedRoutes.delete_task.
    by rewrite Hn.
  - intros k Hk Hrange after3 after2.
    unfold after3, after2, RescoreRoutes.delete_task, PersistedRoutes.delete_task.
    rewrite Hk. cbn [Number_isInteger negb].
    rewrite (Store.pg_int4_in_int k Hrange).
    unfold Statements.delete_where.
    split; [by destruct (_ =? _)%nat|].
    split; [by destruct (_ =? _)%nat|].
    split; [by destruct (_ =? _)%nat|].
    split.
    + intros Habs. rewrite (filter_id_nil k _ Habs), (filter_id_all k _ Habs).
      by destruct d.
    + intros r0 Hin Hid.
      destruct (filter_id_present k _ r0 Hin Hid) as (r' & rest & -> & _).
      done.
Qed.

(** Deleting "sort old photos" (id 2) leaves "water the plants" alone. *)
Lemma delete_removes_the_row_witness :
  let d := Store.mk_db [row_today; row_backlog] 3 in
  Store.rows (RescoreRoutes.delete_task (H:=sample_engine) (H0:=sample_pg) "2" d).1
  = [row_today].
Proof.
  intros d.
  destruct (proj2 (delete_removes_the_row (E:=sample_engine) (P:=sample_pg) "2" d)
              2 eq_refl ltac:(lia)) as (_ & Hrows & _).
  exact Hrows.
Defined.

(** X12.  After a delete under an integer id, whatever it answered, a
    complete under the same id is answered 404 and leaves the table as the
    delete left it.  Both revisions. *)
Theorem complete_after_delete {E : Engine} {P : Store.Pg}
    (tk : ticks) (param : string) (d : Store.db) (k : Z) :
  ToNumber (JStr param) = Int k ->
  -2147483648 <= k <= 2147483647 ->
  let d3 := (RescoreRoutes.delete_task param d).1 in
  let d2 := (PersistedRoutes.delete_task param d).1 in
  RescoreRoutes.patch_complete tk param d3
    = (d3, mk_response 404 (PError "Task not found")) /\
  PersistedRoutes.patch_complete (at_insert tk) param d2
    = (d2, mk_response 404 (PError "task not found")).
Proof.
  intros Hk Hrange d3 d2.
  assert (Hgone : forall l : list Store.row,
            Forall (fun r => Store.id r <> k) (filter (fun r => Store.id r <> k) l)).
  { intros l. apply Forall_forall. intros r Hr.
    by apply list_elem_of_filter in Hr as [? _]. }
  assert (H3 : Forall (fun r => Store.id r <> k) (Store.rows d3)).
  { unfold d3, RescoreRoutes.delete_task. rewrite Hk. cbn [Number_isInteger negb].
    rewrite (Store.pg_int4_in_int k Hrange). unfold Statements.delete_where.
    destruct (_ =? _)%nat; apply Hgone. }
  assert (H2 : Forall (fun r => Store.id r <> k) (Store.rows d2)).
  { unfold d2, PersistedRoutes.delete_task. rewrite Hk. cbn [Number_isInteger negb].
    rewrite (Store.pg_int4_in_int k Hrange). unfold Statements.delete_where.
    destruct (_ =? _)%nat; apply Hgone. }
  unfold RescoreRoutes.patch_complete, PersistedRoutes.patch_complete.
  rewrite Hk. cbn [Number_isInteger negb].
  rewrite (Store.pg_int4_in_int k Hrange).
  by rewrite (update_done_absent _ k d3 H3), (update_done_absent _ k d2 H2).
Qed.

(** Delete id 1, then try to complete id 1. *)
Lemma complete_after_delete_witness :
  let d := Store.mk_db [row_today; row_backlog] 3 in
  let d3 := (RescoreRoutes.delete_task (H:=sample_engine) (H0:=sample_pg) "1" d).1 in
  RescoreRoutes.patch_complete (H:=sample_engine) (H0:=sample_pg) noon "1" d3
  = (d3, mk_response 404 (PError "Task not found")).
Proof.
  intros d d3.
  exact (proj1 (complete_after_delete (E:=sample_engine) (P:=sample_pg) noon "1" d 1
                  eq_refl ltac:(lia))).
Defined.

(** * What the writing routes keep *)

Lemma rescore_insert_shape {P : Store.Pg} now d ti de ar st bu pr du d' r :
  RescoreService.insert_stmt now d ti de ar st bu pr du = Some (d', r) ->
  d' = Store.mk_db (Store.rows d ++ [r]) (Store.next_id d + 1) /\
  Store.id r = Store.next_id d /\ unscored r /\
  Store.pg_text_in st = Some (Store.status r).
Proof.
  unfold RescoreService.insert_stmt. intros Hi.
  apply bind_Some_inv in Hi as (ti' & _ & Hi).
  apply bind_Some_inv in Hi as (de' & _ & Hi).
  apply bind_Some_inv in Hi as (ar' & _ & Hi).
  apply bind_Some_inv in Hi as (st' & Hst & Hi).
  repeat (apply bind_Some_inv in Hi as (? & _ & Hi)).
  unfold Store.append in Hi. injection Hi as <- <-.
  repeat split. cbn [Store.status].
  unfold Store.not_null in Hst. by destruct (Store.is_nullish st).
Qed.

Lemma persisted_insert_shape {P : Store.Pg} now d ti de ar st bu pr sc du d' r :
  PersistedService.insert_stmt now d ti de ar st bu pr sc du = Some (d', r) ->
  d' = Store.mk_db (Store.rows d ++ [r]) (Store.next_id d + 1) /\
  Store.id r = Store.next_id d /\
  Store.pg_text_in st = Some (Store.status r) /\
  Store.nullable Store.pg_int4_in (JNum (Metrics.L sc)) = Some (Store.leverage_score r) /\
  Store.nullable Store.pg_int4_in (JNum (Metrics.U sc)) = Some (Store.urgency_score r) /\
  Store.nullable Store.pg_int4_in (JNum (Metrics.R sc)) = Some (Store.risk_score r) /\
  Store.nullable Store.pg_int4_in (JNum (Metrics.F sc)) = Some (Store.friction_score r).
Proof.
  unfold PersistedService.insert_stmt. intros Hi.
  apply bind_Some_inv in Hi as (ti' & _ & Hi).
  apply bind_Some_inv in Hi as (de' & _ & Hi).
  apply bind_Some_inv in Hi as (ar' & _ & Hi).
  apply bind_Some_inv in Hi as (st' & Hst & Hi).
  apply bind_Some_inv in Hi as (bu' & _ & Hi).
  apply bind_Some_inv in Hi as (pr' & _ & Hi).
  apply bind_Some_inv in Hi as (sl & Hsl & Hi).
  apply bind_Some_inv in Hi as (su & Hsu & Hi).
  apply bind_Some_inv in Hi as (sr & Hsr & Hi).
  apply bind_Some_inv in Hi as (sf & Hsf & Hi).
  apply bind_Some_inv in Hi as (du' & _ & Hi).
  unfold Store.append in Hi. injection Hi as <- <-.
  cbn [Store.status Store.leverage_score Store.urgency_score Store.risk_score
       Store.friction_score Store.id].
  repeat split; try done.
  unfold Store.not_null in Hst. by destruct (Store.is_nullish st).
Qed.

Lemma nullable_int_stored {P : Store.Pg} z o :
  -2147483648 <= z <= 2147483647 ->
  Store.nullable Store.pg_int4_in (JNum (Int z)) = Some o -> o = Some z.
Proof.
  intros Hz. unfold Store.nullable. cbn [Store.is_nullish].
  rewrite (Store.pg_int4_in_int z Hz). simpl. congruence.
Qed.

(** The table invariants, for one appended row. *)
Lemma ids_fresh_append (d : Store.db) (r : Store.row) :
  ids_fresh d -> Store.id r = Store.next_id d ->
  ids_fresh (Store.mk_db (Store.rows d ++ [r]) (Store.next_id d + 1)).
Proof.
  intros [Hlt Hnd] Hid. unfold ids_fresh. cbn [Store.rows Store.next_id]. split.
  - apply Forall_app. split.
    + eapply Forall_impl; [exact Hlt|]. simpl. intros; lia.
    + constructor; [lia | constructor].
  - rewrite fmap_app. apply NoDup_app. split; [done|]. split.
    + intros x Hx Hx'. apply list_elem_of_fmap in Hx as (r' & -> & Hr').
      simpl in Hx'. apply list_elem_of_singleton in Hx'.
      rewrite Forall_forall in Hlt. specialize (Hlt r' Hr'). lia.
    + simpl. apply NoDup_singleton.
Qed.

Lemma ids_fresh_update now k (d : Store.db) :
  ids_fresh d -> ids_fresh (Statements.update_done now k d).1.
Proof.
  intros [Hlt Hnd]. unfold ids_fresh, Statements.update_done.
  cbn [fst Store.rows Store.next_id].
  assert (Hids : Store.id <$> ((fun r => if Store.id r =? k
                                        then Statements.mark_done now r else r)
                               <$> Store.rows d)
                 = Store.id <$> Store.rows d).
  { rewrite <- list_fmap_compose. apply list_fmap_ext. intros i r _. simpl.
    by destruct (Store.id r =? k). }
  split; [|by rewrite Hids].
  apply Forall_fmap. eapply Forall_impl; [exact Hlt|]. intros r Hr. simpl.
  by destruct (Store.id r =? k).
Qed.

Lemma ids_fresh_delete k (d : Store.db) :
  ids_fresh d -> ids_fresh (Statements.delete_where k d).1.
Proof.
  intros [Hlt Hnd]. unfold ids_fresh, Statements.delete_where.
  cbn [fst Store.rows Store.next_id]. split.
  - apply Forall_forall. intros r Hr.
    apply list_elem_of_filter in Hr as [_ Hr].
    rewrite Forall_forall in Hlt. by apply Hlt.
  - eapply sublist_NoDup; [exact Hnd|]. apply fmap_sublist, sublist_filter.
Qed.

Lemma open_is_stored {P : Store.Pg} s :
  Store.pg_text_in (JStr "open") = Some s -> s = "open".
Proof. rewrite (Store.pg_text_in_str "open" eq_refl). congruence. Qed.

Lemma rescore_post_outcome {E : Engine} {P : Store.Pg} tk body d :
  let after := RescoreService.post_tasks tk body d in
  (after.1 = d /\ status_code after.2 <> 201) \/
  (exists r, after.1 = Store.mk_db (Store.rows d ++ [r]) (Store.next_id d + 1) /\
             Store.id r = Store.next_id d /\ unscored r /\
             status_code after.2 = 201).
Proof.
  unfold RescoreService.post_tasks. cbv zeta.
  destruct (negb _ || negb _); [by left|].
  destruct (RescoreService.insert_stmt _ _ _ _ _ _ _ _ _) as [[d' r]|] eqn:Hi;
    [|by left].
  destruct (rescore_insert_shape _ _ _ _ _ _ _ _ _ _ _ Hi) as (-> & Hid & Hun & _).
  destruct (rescored_total tk r) as [o ->].
  right. by exists r.
Qed.

Lemma persisted_row_in_range {E : Engine} {P : Store.Pg}
    nowU nowR t sc now d ti de ar st bu pr du d' r :
  Persisted.computeScores nowU nowR t = Some sc ->
  PersistedService.insert_stmt now d ti de ar st bu pr sc du = Some (d', r) ->
  d' = Store.mk_db (Store.rows d ++ [r]) (Store.next_id d + 1) /\
  Store.id r = Store.next_id d /\ scored_in_range r /\
  Store.pg_text_in st = Some (Store.status r) /\
  Store.of_opt_int (Store.leverage_score r) = JNum (Metrics.L sc) /\
  Store.of_opt_int (Store.urgency_score r) = JNum (Metrics.U sc) /\
  Store.of_opt_int (Store.risk_score r) = JNum (Metrics.R sc) /\
  Store.of_opt_int (Store.friction_score r) = JNum (Metrics.F sc).
Proof.
  intros Hsc Hi.
  destruct (persisted_scores_shape _ _ _ _ Hsc)
    as (l & u & k & f & -> & Hl & Hu & Hk & Hf).
  destruct (persisted_insert_shape _ _ _ _ _ _ _ _ _ _ _ _ Hi)
    as (-> & Hid & Hst & HL & HU & HR & HF).
  cbn [Metrics.L Metrics.U Metrics.R Metrics.F] in *.
  apply nullable_int_stored in HL; [|lia].
  apply nullable_int_stored in HU; [|lia].
  apply nullable_int_stored in HR; [|lia].
  apply nullable_int_stored in HF; [|lia].
  split; [done|]. split; [done|]. split.
  { unfold scored_in_range. rewrite HL, HU, HR, HF. repeat split; eauto. }
  split; [done|]. by rewrite HL, HU, HR, HF.
Qed.

Lemma persisted_post_outcome {E : Engine} {P : Store.Pg} tk body d :
  let after := PersistedService.post_tasks tk body d in
  (after.1 = d /\ status_code after.2 <> 201) \/
  (exists r, after.1 = Store.mk_db (Store.rows d ++ [r]) (Store.next_id d + 1) /\
             Store.id r = Store.next_id d /\ scored_in_range r /\
             status_code after.2 = 201).
Proof.
  unfold PersistedService.post_tasks. cbv zeta.
  destruct (negb _ || negb _); [by left|].
  destruct (Persisted.computeScores _ _ _) as [sc|] eqn:Hsc; [|by left].
  destruct (PersistedService.insert_stmt _ _ _ _ _ _ _ _ _ _) as [[d' r]|] eqn:Hi;
    [|by left].
  destruct (persisted_row_in_range _ _ _ _ _ _ _ _ _ _ _ _ _ _ _ Hsc Hi)
    as (-> & Hid & Hrange & _).
  right. by exists r.
Qed.

Section LoopInvariants.
Context {E : Engine} {P : Store.Pg}.
Variable clk : nat -> ticks.
Variable Inv : Store.db -> Prop.

Lemma rescore_loop_keeps db da tasks d created :
  (forall d r, Inv d -> Store.id r = Store.next_id d -> unscored r ->
     Store.status r = "open" ->
     Inv (Store.mk_db (Store.rows d ++ [r]) (Store.next_id d + 1))) ->
  Inv d -> Inv (RescoreService.brain_dump_loop clk db da tasks d created).1.
Proof.
  intros Hstep. revert d created.
  induction tasks as [|t rest IH]; intros d created Hd; [done|].
  cbn [RescoreService.brain_dump_loop].
  destruct (negb (truthy (get t "title"))); [by apply IH|].
  destruct (RescoreService.insert_draft _ _ _ _ _) as [[d' r]|] eqn:Hi; [|done].
  unfold RescoreService.insert_draft in Hi.
  destruct (rescore_insert_shape _ _ _ _ _ _ _ _ _ _ _ Hi) as (-> & Hid & Hun & Hst).
  apply open_is_stored in Hst.
  assert (Inv (Store.mk_db (Store.rows d ++ [r]) (Store.next_id d + 1))) as Hd'
    by (by apply Hstep).
  destruct (RescoreService.rescored _ r); [by apply IH | done].
Qed.

Lemma persisted_loop_keeps db da tasks d created :
  (forall d r, Inv d -> Store.id r = Store.next_id d -> scored_in_range r ->
     Store.status r = "open" ->
     Inv (Store.mk_db (Store.rows d ++ [r]) (Store.next_id d + 1))) ->
  Inv d -> Inv (PersistedService.brain_dump_loop clk db da tasks d created).1.
Proof.
  intros Hstep. revert d created.
  induction tasks as [|t rest IH]; intros d created Hd; [done|].
  cbn [PersistedService.brain_dump_loop].
  destruct (negb (truthy (JStr (PersistedService.draft_title t)))); [by apply IH|].
  destruct (PersistedService.insert_draft _ _ _ _ _) as [[d' r]|] eqn:Hi; [|done].
  unfold PersistedService.insert_draft in Hi.
  apply bind_Some_inv in Hi as (sc & Hsc & Hi).
  destruct (persisted_row_in_range _ _ _ _ _ _ _ _ _ _ _ _ _ _ _ Hsc Hi)
    as (-> & Hid & Hrange & Hst & _).
  apply open_is_stored in Hst.
  apply IH. by apply Hstep.
Qed.

Lemma rescore_dump_keeps body reply d :
  (forall d r, Inv d -> Store.id r = Store.next_id d -> unscored r ->
     Store.status r = "open" ->
     Inv (Store.mk_db (Store.rows d ++ [r]) (Store.next_id d + 1))) ->
  Inv d -> Inv (RescoreService.post_brain_dump clk body reply d).1.
Proof.
  intros Hstep Hd. unfold RescoreService.post_brain_dump. cbv zeta.
  destruct (negb _ || negb _); [done|].
  destruct reply as [| |tasks]; [done..|].
  pose proof (rescore_loop_keeps
                (get_default body "default_bucket" (JStr "today"))
                (get_default body "default_area" JNull) tasks d [] Hstep Hd) as Hl.
  destruct (RescoreService.brain_dump_loop _ _ _ tasks d []) as [d' [created|]]; done.
Qed.

Lemma persisted_dump_keeps key body reply d :
  (forall d r, Inv d -> Store.id r = Store.next_id d -> scored_in_range r ->
     Store.status r = "open" ->
     Inv (Store.mk_db (Store.rows d ++ [r]) (Store.next_id d + 1))) ->
  Inv d -> Inv (PersistedService.post_brain_dump clk key body reply d).1.
Proof.
  intros Hstep Hd. unfold PersistedService.post_brain_dump. cbv zeta.
  destruct (negb _ || negb _); [done|].
  destruct (negb key); [done|].
  destruct reply as [| |tasks]; [done..|].
  destruct tasks as [|t tasks]; [done|].
  pose proof (persisted_loop_keeps
                (get_default body "default_bucket" (JStr "today"))
                (get_default body "default_area" JNull) (t :: tasks) d [] Hstep Hd)
    as Hl.
  destruct (PersistedService.brain_dump_loop _ _ _ (t :: tasks) d [])
    as [d' [created|]]; done.
Qed.

End LoopInvariants.

Lemma rescore_complete_table {E : Engine} {P : Store.Pg} tk param d :
  (RescoreRoutes.patch_complete tk param d).1 = d \/
  exists k, (RescoreRoutes.patch_complete tk param d).1
            = (Statements.update_done (at_insert tk) k d).1.
Proof.
  unfold RescoreRoutes.patch_complete. cbv zeta.
  destruct (negb _); [by left|].
  destruct (Store.pg_int4_in _) as [k|]; [|by left].
  right. exists k. unfold Statements.update_done.
  destruct (_ =? _)%nat; [done|].
  by destruct (withScores _ _) as [[|o out]|].
Qed.

Lemma persisted_complete_table {E : Engine} {P : Store.Pg} now param d :
  (PersistedRoutes.patch_complete now param d).1 = d \/
  exists k, (PersistedRoutes.patch_complete now param d).1
            = (Statements.update_done now k d).1.
Proof.
  unfold PersistedRoutes.patch_complete. cbv zeta.
  destruct (negb _); [by left|].
  destruct (Store.pg_int4_in _) as [k|]; [|by left].
  right. exists k. unfold Statements.update_done.
  by destruct (Statements.mark_done now <$> _).
Qed.

Lemma rescore_delete_table {E : Engine} {P : Store.Pg} param d :
  (RescoreRoutes.delete_task param d).1 = d \/
  exists k, (RescoreRoutes.delete_task param d).1 = (Statements.delete_where k d).1.
Proof.
  unfold RescoreRoutes.delete_task. cbv zeta.
  destruct (negb _); [by left|].
  destruct (Store.pg_int4_in _) as [k|]; [|by left].
  right. exists k. unfold Statements.delete_where. by destruct (_ =? _)%nat.
Qed.

Lemma persisted_delete_table {E : Engine} {P : Store.Pg} param d :
  (PersistedRoutes.delete_task param d).1 = d \/
  exists k, (PersistedRoutes.delete_task param d).1 = (Statements.delete_where k d).1.
Proof.
  unfold PersistedRoutes.delete_task. cbv zeta.
  destruct (negb _); [by left|].
  destruct (Store.pg_int4_in _) as [k|]; [|by left].
  right. exists k. unfold Statements.delete_where. by destruct (_ =? _)%nat.
Qed.

Lemma update_done_keeps_scores now k (d : Store.db) (Q : Store.row -> Prop) :
  (forall r, Q r -> Q (Statements.mark_done now r)) ->
  Forall Q (Store.rows d) ->
  Forall Q (Store.rows (Statements.update_done now k d).1).
Proof.
  intros HQ Hd. unfold Statements.update_done. cbn [fst Store.rows].
  apply Forall_fmap. eapply Forall_impl; [exact Hd|]. intros r Hr. simpl.
  destruct (Store.id r =? k); auto.
Qed.

Lemma delete_where_keeps k (d : Store.db) (Q : Store.row -> Prop) :
  Forall Q (Store.rows d) -> Forall Q (Store.rows (Statements.delete_where k d).1).
Proof.
  intros Hd. unfold Statements.delete_where. cbn [fst Store.rows].
  apply Forall_forall. intros r Hr. apply list_elem_of_filter in Hr as [_ Hr].
  rewrite Forall_forall in Hd. by apply Hd.
Qed.

Lemma rescore_reachable_unscored {E : Engine} {P : Store.Pg} (d : Store.db) :
  rescore_reachable d -> Forall unscored (Store.rows d).
Proof.
  induction 1 as [|tk body d Hd IH|clk body reply d Hd IH|tk param d Hd IH
                  |param d Hd IH].
  - constructor.
  - destruct (rescore_post_outcome tk body d) as [[-> _] | (r & -> & _ & Hr & _)];
      [done|]. cbn [Store.rows]. apply Forall_app. split; [done | by constructor].
  - apply (rescore_dump_keeps clk (fun d => Forall unscored (Store.rows d)));
      [|done].
    intros d0 r H0 _ Hr _. cbn [Store.rows]. apply Forall_app.
    split; [done | by constructor].
  - destruct (rescore_complete_table tk param d) as [-> | [k ->]]; [done|].
    apply update_done_keeps_scores; [|done]. by intros r (? & ? & ?).
  - destruct (rescore_delete_table param d) as [-> | [k ->]]; [done|].
    by apply delete_where_keeps.
Qed.

(** X13.  In every table that the re-scoring revision can produce from the
    empty table through its writing routes, ids are unique and below the
    counter, and the stored [leverage_score], [risk_score] and
    [friction_score] of every row are NULL. *)
Theorem rescore_table_invariant {E : Engine} {P : Store.Pg} (d : Store.db) :
  rescore_reachable d -> ids_fresh d /\ Forall unscored (Store.rows d).
Proof.
  intros Hreach. split; [|by apply rescore_reachable_unscored].
  induction Hreach as [|tk body d Hd IH|clk body reply d Hd IH|tk param d Hd IH
                       |param d Hd IH].
  - split; constructor.
  - destruct (rescore_post_outcome tk body d) as [[-> _] | (r & -> & Hid & _)];
      [done | by apply ids_fresh_append].
  - apply (rescore_dump_keeps clk ids_fresh); [|done].
    intros d0 r H0 Hid _ _. by apply ids_fresh_append.
  - destruct (rescore_complete_table tk param d) as [-> | [k ->]]; [done|].
    by apply ids_fresh_update.
  - destruct (rescore_delete_table param d) as [-> | [k ->]]; [done|].
    by apply ids_fresh_delete.
Qed.

(** After one creation the table holds one row, of id 1, unscored. *)
Lemma rescore_table_invariant_witness :
  let d := (RescoreService.post_tasks (H:=sample_engine) (H0:=sample_pg) noon
              {[ "title" := JStr "buy milk" ]} (Store.mk_db [] 1)).1 in
  ids_fresh d /\ Forall unscored (Store.rows d).
Proof.
  intros d.
  apply (rescore_table_invariant (E:=sample_engine) (P:=sample_pg)).
  apply rescore_post, rescore_empty.
Defined.

(** X14.  In every table that the persisting revision can produce from the
    empty table through its writing routes, ids are unique and below the
    counter, and every row stores a leverage in 1..5, an urgency in 1..5, a
    risk in 2..4 and a friction in 1..3. *)
Theorem persisted_table_invariant {E : Engine} {P : Store.Pg} (d : Store.db) :
  persisted_reachable d -> ids_fresh d /\ Forall scored_in_range (Store.rows d).
Proof.
  assert (Hstep : forall d r,
            ids_fresh d /\ Forall scored_in_range (Store.rows d) ->
            Store.id r = Store.next_id d -> scored_in_range r ->
            ids_fresh (Store.mk_db (Store.rows d ++ [r]) (Store.next_id d + 1)) /\
            Forall scored_in_range
              (Store.rows (Store.mk_db (Store.rows d ++ [r]) (Store.next_id d + 1)))).
  { intros d0 r [Hf Hu] Hid Hr. split; [by apply ids_fresh_append|].
    cbn [Store.rows]. apply Forall_app. split; [done|]. by constructor. }
  induction 1 as [|tk body d Hd IH|clk key body reply d Hd IH|now param d Hd IH
                  |param d Hd IH].
  - split; [split; constructor | constructor].
  - destruct (persisted_post_outcome tk body d)
      as [[-> _] | (r & -> & Hid & Hr & _)]; [done | by apply Hstep].
  - apply (persisted_dump_keeps clk
             (fun d => ids_fresh d /\ Forall scored_in_range (Store.rows d)));
      [|done].
    intros d0 r H0 Hid Hr _. by apply Hstep.
  - destruct (persisted_complete_table now param d) as [-> | [k ->]]; [done|].
    destruct IH as [Hf Hu]. split; [by apply ids_fresh_update|].
    by apply update_done_keeps_scores.
  - destruct (persisted_delete_table param d) as [-> | [k ->]]; [done|].
    destruct IH as [Hf Hu]. split; [by apply ids_fresh_delete|].
    by apply delete_where_keeps.
Qed.

(** After one creation the table holds one row, scored within range. *)
Lemma persisted_table_invariant_witness :
  let d := (PersistedService.post_tasks (H:=sample_engine) (H0:=sample_pg) noon
              {[ "title" := JStr "buy milk" ]} (Store.mk_db [] 1)).1 in
  ids_fresh d /\ Forall scored_in_range (Store.rows d).
Proof.
  intros d.
  apply (persisted_table_invariant (E:=sample_engine) (P:=sample_pg)).
  apply persisted_post, persisted_empty.
Defined.

Lemma current_fields_of_reported (m : Metrics.t) (t : obj) :
  current_fields (Metrics.to_obj m ∪ t) = current_fields t.
Proof.
  destruct (reported_metrics m t) as (_ & _ & _ & _ & _ & Hk).
  unfold current_fields. by rewrite !Hk.
Qed.

(** X15.  On every table that the re-scoring revision can itself produce,
    [GET /tasks] answers 200, and each task it reports carries exactly the
    scores that the scoring function gives for that task's own current
    fields (priority, bucket, due_date, description) at the clock readings
    taken for it. *)
Theorem rescore_list_scores_from_fields {E : Engine} {P : Store.Pg}
    (clk : nat -> Z * Z) (d : Store.db) :
  rescore_reachable d ->
  exists out,
    RescoreService.get_tasks clk d = mk_response 200 (PTasks out) /\
    length out = length (Store.rows d) /\
    forall i o, out !! i = Some o ->
      exists m,
        Rescore.computeTonyScore (clk i).1 (clk i).2 (current_fields o) = Some m /\
        get o "L" = JNum (Metrics.L m) /\ get o "U" = JNum (Metrics.U m) /\
        get o "R" = JNum (Metrics.R m) /\ get o "F" = JNum (Metrics.F m) /\
        get o "score" = JNum (Metrics.score m).
Proof.
  intros Hreach.
  pose proof (rescore_reachable_unscored d Hreach) as Hun.
  unfold RescoreService.get_tasks.
  set (sorted := Store.order_by RescoreService.list_order (Store.rows d)).
  assert (Hsorted : Forall unscored sorted).
  { unfold sorted. by rewrite <- (order_by_perm _ (Store.rows d)). }
  destruct (withScores_total clk (Store.to_obj_scored <$> sorted))
    as (out & Hout & Hlen).
  { intros a b t Ht. apply list_elem_of_fmap in Ht as (r & -> & _).
    apply computeTonyScore_total_on_rows. }
  exists out. rewrite Hout. split; [done|].
  rewrite length_fmap in Hlen. split.
  { rewrite Hlen. unfold sorted.
    by rewrite <- (order_by_perm _ (Store.rows d)). }
  intros i o Ho.
  destruct (sorted !! i) as [r|] eqn:Hr.
  2:{ apply lookup_ge_None in Hr. apply lookup_lt_Some in Ho. lia. }
  destruct (withScores_lookup clk _ out Hout i (Store.to_obj_scored r))
    as (m & Hm & Ho').
  { by rewrite list_lookup_fmap, Hr. }
  rewrite Ho in Ho'. injection Ho' as ->.
  exists m. rewrite current_fields_of_reported.
  destruct (reported_metrics m (Store.to_obj_scored r)) as (HL & HU & HR & HF & Hs & _).
  split; [|done].
  rewrite <- computeTonyScore_current_fields; [done|..];
    rewrite Forall_forall in Hsorted;
    destruct (Hsorted r) as (H1 & H2 & H3);
    try (eapply list_elem_of_lookup_2; eassumption);
    destruct (row_fields r) as (_ & _ & _ & _ & HsL & HsR & HsF).
  - by rewrite HsL, H1.
  - by rewrite HsR, H2.
  - by rewrite HsF, H3.
Qed.

(** One creation, then a listing: the one task reported has the scores of
    its own fields. *)
Lemma rescore_list_scores_from_fields_witness :
  let d := (RescoreService.post_tasks (H:=sample_engine) (H0:=sample_pg) noon
              {[ "title" := JStr "buy milk" ]} (Store.mk_db [] 1)).1 in
  exists out,
    RescoreService.get_tasks (H:=sample_engine) (fun _ => (0, 0)) d
      = mk_response 200 (PTasks out) /\
    length out = 1%nat.
Proof.
  intros d.
  destruct (rescore_list_scores_from_fields (E:=sample_engine) (P:=sample_pg)
              (fun _ => (0, 0)) d) as (out & Hget & Hlen & _).
  { apply rescore_post, rescore_empty. }
  exists out. split; [exact Hget | exact Hlen].
Defined.


(** X17.  A brain dump only ever appends: the table afterwards is the old
    table followed by the new rows, each with status "open", whatever the
    answer.  When the text is missing or no string, or the collaborator
    gave no drafts, nothing is appended.  Both revisions. *)
Theorem brain_dump_appends_open_tasks {E : Engine} {P : Store.Pg}
    (clk : nat -> ticks) (key : bool) (body : obj) (reply : llm_reply)
    (d : Store.db) :
  let after3 := RescoreService.post_brain_dump clk body reply d in
  let after2 := PersistedService.post_brain_dump clk key body reply d in
  (exists new, Store.rows after3.1 = (Store.rows d ++ new)%list /\
               Forall (fun r => Store.status r = "open" /\ unscored r) new) /\
  (exists new, Store.rows after2.1 = (Store.rows d ++ new)%list /\
               Forall (fun r => Store.status r = "open" /\ scored_in_range r) new) /\
  (truthy (get body "text") = false \/ is_string (get body "text") = false ->
     after3 = (d, mk_response 400 (PError "text is required")) /\
     after2 = (d, mk_response 400 (PError "text is required"))) /\
  (reply = LlmThrows \/ reply = LlmBadJson \/ reply = LlmDrafts [] ->
     after3.1 = d /\ after2.1 = d).
Proof.
  intros after3 after2. repeat apply conj.
  - apply (rescore_dump_keeps clk
             (fun d' => exists new, Store.rows d' = (Store.rows d ++ new)%list /\
                Forall (fun r => Store.status r = "open" /\ unscored r) new)).
    + intros d0 r (new & Hrows & Hnew) _ Hun Hst.
      exists (new ++ [r])%list. cbn [Store.rows]. rewrite Hrows, app_assoc.
      split; [done|]. apply Forall_app. split; [done|]. by constructor.
    + exists []. split; [by rewrite app_nil_r | constructor].
  - apply (persisted_dump_keeps clk
             (fun d' => exists new, Store.rows d' = (Store.rows d ++ new)%list /\
                Forall (fun r => Store.status r = "open" /\ scored_in_range r) new)).
    + intros d0 r (new & Hrows & Hnew) _ Hun Hst.
      exists (new ++ [r])%list. cbn [Store.rows]. rewrite Hrows, app_assoc.
      split; [done|]. apply Forall_app. split; [done|]. by constructor.
    + exists []. split; [by rewrite app_nil_r | constructor].
  - intros Hbad.
    assert (negb (truthy (get body "text")) || negb (is_string (get body "text"))
            = true) as Hrej.
    { destruct Hbad as [-> | ->]; [done | by rewrite orb_true_r]. }
    unfold after3, after2, RescoreService.post_brain_dump,
      PersistedService.post_brain_dump.
    by rewrite Hrej.
  - intros Hr.
    unfold after3, after2, RescoreService.post_brain_dump,
      PersistedService.post_brain_dump. cbv zeta.
    destruct (negb _ || negb _); [done|]. destruct (negb key);
      by destruct Hr as [-> | [-> | ->]].
Qed.



(** X19.  Complete, then list (re-scoring revision): in the rows the list
    selects after a complete under an integer id, no task that is not done
    comes after a task of that id. *)
Theorem completed_task_is_listed_last {E : Engine} {P : Store.Pg}
    (tk : ticks) (param : string) (d : Store.db) (k : Z) :
  ToNumber (JStr param) = Int k ->
  -2147483648 <= k <= 2147483647 ->
  let d' := (RescoreRoutes.patch_complete tk param d).1 in
  let sorted := Store.order_by RescoreService.list_order (Store.rows d') in
  forall i j a b, (i < j)%nat ->
    sorted !! i = Some a -> sorted !! j = Some b ->
    Store.id a = k -> Store.status b = "done".
Proof.
  intros Hk Hrange d' sorted i j a b Hij Ha Hb Hid.
  assert (Hd' : d' = (Statements.update_done (at_insert tk) k d).1).
  { unfold d', RescoreRoutes.patch_complete. rewrite Hk. cbn [Number_isInteger negb].
    rewrite (Store.pg_int4_in_int k Hrange). unfold Statements.update_done.
    destruct (_ =? _)%nat; [done|].
    by destruct (withScores _ _) as [[|o out]|]. }
  assert (Hdone : Store.status a = "done").
  { assert (a ∈ Store.rows d') as Hin.
    { rewrite (order_by_perm RescoreService.list_order (Store.rows d')).
      eapply list_elem_of_lookup_2. exact Ha. }
    rewrite Hd' in Hin. unfold Statements.update_done in Hin.
    cbn [fst Store.rows] in Hin.
    apply list_elem_of_fmap in Hin as (r & -> & _).
    destruct (Z.eqb_spec (Store.id r) k); [done | by rewrite Hid in *]. }
  pose proof (rescore_order_sorted (Store.rows d')) as Hs.
  eapply rescore_done_not_before; [|exact Hdone].
  exact (sorted_pairwise _ _ _ _ _ _ Hs Hij Ha Hb).
Qed.

(** Completing "water the plants" (id 1) beside a task that was done
    before: the list has the completed task first, and what follows it is
    done. *)
Lemma completed_task_is_listed_last_witness :
  let d := Store.mk_db [row_today; row_filed] 4 in
  let d' := (RescoreRoutes.patch_complete (H:=sample_engine) (H0:=sample_pg)
               noon "1" d).1 in
  Store.id <$> Store.order_by RescoreService.list_order (Store.rows d') = [1; 3] /\
  Store.status row_filed = "done".
Proof.
  intros d d'. split; [reflexivity|].
  exact (completed_task_is_listed_last (E:=sample_engine) (P:=sample_pg) noon "1" d 1
           eq_refl ltac:(lia) 0%nat 1%nat (Statements.mark_done 0 row_today)
           row_filed ltac:(lia) eq_refl eq_refl eq_refl).
Defined.

(** * The per-user service of the SQLite revision *)

Lemma sqlite_insert_by_perm cmp x l :
  Permutation (x :: l) (SqliteService.insert_by cmp x l).
Proof.
  induction l as [|y l IH]; simpl; [done|].
  destruct (cmp x y); try done.
  rewrite perm_swap. by constructor.
Qed.

Lemma sqlite_order_by_perm cmp l : Permutation l (SqliteService.order_by cmp l).
Proof.
  induction l as [|x l IH]; simpl; [done|].
  rewrite <- sqlite_insert_by_perm. by constructor.
Qed.




Lemma sqlite_put_writes {E : Engine} {D : SqliteService.Driver} now u param body d :
  (SqliteService.put_task now (Some u) param body d).1 = d \/
  exists k upd,
    (forall r, SqliteService.id (upd r) = SqliteService.id r /\
               SqliteService.user_id (upd r) = SqliteService.user_id r) /\
    SqliteService.rows (SqliteService.put_task now (Some u) param body d).1
      = (fun r => if decide (SqliteService.id r = k /\ SqliteService.owned_by u r)
                  then upd r else r) <$> SqliteService.rows d.
Proof.
  unfold SqliteService.put_task.
  destruct (ToNumber (JStr param)) as [|[|p|p]]; [by left | by left | |].
  all: match goal with
       | |- context [SqliteService.find_task ?k ?w ?t] =>
           set (key := k); destruct (SqliteService.find_task key w t) as [e|]; [|by left]
       end.
  all: match goal with
       | |- context [match ?o with Some _ => _ | None => _ end] =>
           destruct o as [upd|] eqn:Hupd
       end; [|by left].
  all: right; exists key, upd; (split; [|done]).
  all: repeat (apply bind_Some_inv in Hupd as (? & _ & Hupd)).
  all: by injection Hupd as <-.
Qed.

Lemma sqlite_filter_update (P : SqliteService.row -> Prop) `{!forall r, Decision (P r)}
    (f : SqliteService.row -> SqliteService.row) (l : list SqliteService.row) :
  (forall r, P r -> f r = r) -> (forall r, ~ P r -> ~ P (f r)) ->
  filter P (f <$> l) = filter P l.
Proof.
  intros Hkeep Hout. induction l as [|r l IH]; [done|].
  rewrite fmap_cons. destruct (decide (P r)) as [Hr|Hr].
  - rewrite Hkeep by done. rewrite !filter_cons_True by done. by rewrite IH.
  - rewrite !filter_cons_False by auto. exact IH.
Qed.

Lemma sqlite_filter_filter (P Q : SqliteService.row -> Prop)
    `{!forall r, Decision (P r)} `{!forall r, Decision (Q r)}
    (l : list SqliteService.row) :
  (forall r, P r -> Q r) -> filter P (filter Q l) = filter P l.
Proof.
  intros HPQ. induction l as [|r l IH]; [done|].
  destruct (decide (Q r)) as [Hq|Hq].
  - rewrite (filter_cons_True Q) by done.
    destruct (decide (P r)).
    + rewrite !filter_cons_True by done. by rewrite IH.
    + rewrite !filter_cons_False by done. exact IH.
  - rewrite (filter_cons_False Q) by done.
    rewrite (filter_cons_False P) by auto. exact IH.
Qed.

Lemma sqlite_post_writes {D : SqliteService.Driver} now u body d :
  (exists c msg, SqliteService.post_task now (Some u) body d
                 = (d, Json (mk_response c (PError msg)))) \/
  exists r, SqliteService.user_id r = Some u /\ SqliteService.id r = SqliteService.next_id d /\
    SqliteService.post_task now (Some u) body d
      = (SqliteService.mk_db (SqliteService.rows d ++ [r]) (SqliteService.next_id d + 1),
         Json (mk_response 201 (PTask (SqliteService.to_obj r)))).
Proof.
  unfold SqliteService.post_task.
  destruct (negb (truthy (get body "title")) || negb (is_string (get body "title")));
    [left; eauto|].
  match goal with
  | |- context [match ?o with Some _ => _ | None => _ end] => destruct o as [r|] eqn:Hr
  end; [|left; unfold SqliteService.server_error; eauto].
  right. exists r. split; [|split; [|done]].
  - repeat (apply bind_Some_inv in Hr as (? & _ & Hr)). by injection Hr as <-.
  - repeat (apply bind_Some_inv in Hr as (? & _ & Hr)). by injection Hr as <-.
Qed.

(** X21.  No request changes another user's tasks: whatever the signed-in
    user (or nobody) posts, puts or deletes, the tasks of every other user
    stay in the table exactly as they were. *)
Theorem sqlite_writes_are_scoped {E : Engine} {D : SqliteService.Driver}
    (now : string) (user : option Z) (param : string) (body : obj)
    (d : SqliteService.db) (v : Z) :
  user <> Some v ->
  let theirs d' := filter (SqliteService.owned_by v) (SqliteService.rows d') in
  theirs (SqliteService.post_task now user body d).1 = theirs d /\
  theirs (SqliteService.put_task now user param body d).1 = theirs d /\
  theirs (SqliteService.delete_task user param d).1 = theirs d.
Proof.
  intros Hv theirs. subst theirs. cbv beta.
  destruct user as [u|]; [|done].
  assert (u <> v) as Huv by congruence.
  split; [|split].
  - destruct (sqlite_post_writes now u body d) as [(c & msg & ->)|(r & Hu & _ & ->)]; [done|].
    cbn [fst SqliteService.rows]. rewrite filter_app.
    rewrite (filter_cons_False _ r) by (unfold SqliteService.owned_by; congruence).
    by rewrite filter_nil, app_nil_r.
  - destruct (sqlite_put_writes now u param body d) as [->|(k & upd & Hupd & ->)]; [done|].
    apply sqlite_filter_update.
    + intros r Hr. rewrite decide_False; [done|].
      unfold SqliteService.owned_by in *. intros [_ ?]. congruence.
    + intros r Hr. destruct (decide _); [|done].
      unfold SqliteService.owned_by in *. by rewrite (proj2 (Hupd r)).
  - unfold SqliteService.delete_task.
    assert (forall k,
      filter (SqliteService.owned_by v)
        (filter (fun r => ~ (SqliteService.id r = k /\ SqliteService.owned_by u r))
           (SqliteService.rows d))
      = filter (SqliteService.owned_by v) (SqliteService.rows d)) as Hdel.
    { intros k. apply sqlite_filter_filter.
      unfold SqliteService.owned_by. intros r Hr [_ ?]. congruence. }
    destruct (ToNumber (JStr param)) as [|[|p|p]]; try done; apply Hdel.
Qed.

(** Bob (user 20) edits and deletes with Ann's task id; Ann's task stays. *)
Lemma sqlite_writes_are_scoped_witness :
  let theirs d' := filter (SqliteService.owned_by 10) (SqliteService.rows d') in
  theirs (@SqliteService.post_task sample_driver
            "2024-02-01T00:00:00.000Z" (Some 20) {["title" := JStr "x"]} shared_table).1
    = [ann_task] /\
  theirs (@SqliteService.put_task sample_engine sample_driver
            "2024-02-01T00:00:00.000Z" (Some 20) "1" {["title" := JStr "x"]} shared_table).1
    = [ann_task] /\
  theirs (@SqliteService.delete_task sample_engine (Some 20) "1" shared_table).1
    = [ann_task].
Proof.
  apply (sqlite_writes_are_scoped (E:=sample_engine) (D:=sample_driver)
           "2024-02-01T00:00:00.000Z" (Some 20) "1" {["title" := JStr "x"]}
           shared_table 10).
  discriminate.
Defined.

Lemma sqlite_row_fields (r : SqliteService.row) :
  get (SqliteService.to_obj r) "title" = SqliteService.to_js (SqliteService.title r) /\
  get (SqliteService.to_obj r) "description"
    = SqliteService.to_js (SqliteService.description r) /\
  get (SqliteService.to_obj r) "area" = SqliteService.to_js (SqliteService.area r) /\
  get (SqliteService.to_obj r) "status" = SqliteService.to_js (SqliteService.status r) /\
  get (SqliteService.to_obj r) "bucket" = SqliteService.to_js (SqliteService.bucket r) /\
  get (SqliteService.to_obj r) "priority"
    = SqliteService.to_js (SqliteService.priority r) /\
  get (SqliteService.to_obj r) "due_date"
    = SqliteService.to_js (SqliteService.due_date r).
Proof. repeat split; reflexivity. Qed.

Lemma sqlite_bind_text_merge {D : SqliteService.Driver} body f old :
  text_field (get body f) -> text_or_null old ->
  SqliteService.bind_text (get_default body f (SqliteService.to_js old))
  = Some (patched old (get body f)).
Proof.
  unfold get_default. intros [->|[s ->]] Hold; simpl.
  - destruct old; [apply SqliteService.bind_text_null | done | apply SqliteService.bind_text_str].
  - apply SqliteService.bind_text_str.
Qed.

Lemma sqlite_bind_text_merge_nn {D : SqliteService.Driver} body f t :
  text_field (get body f) ->
  SqliteService.not_null
    (SqliteService.bind_text (get_default body f (JStr t)))
  = Some (patched (SqliteService.SText t) (get body f)).
Proof.
  unfold get_default. intros [->|[s ->]]; simpl; by rewrite SqliteService.bind_text_str.
Qed.

Lemma sqlite_bind_int_merge_nn {D : SqliteService.Driver} body f z :
  int_field (get body f) ->
  SqliteService.not_null
    (SqliteService.bind_int (get_default body f (JNum (Int z))))
  = Some (patched (SqliteService.SInt z) (get body f)).
Proof.
  unfold get_default. intros [->|[s ->]]; simpl; by rewrite SqliteService.bind_int_int.
Qed.

Lemma sqlite_find_in (k u : Z) (d : SqliteService.db) r :
  SqliteService.find_task k u d = Some r ->
  r ∈ SqliteService.rows d /\ SqliteService.id r = k /\ SqliteService.user_id r = Some u.
Proof.
  unfold SqliteService.find_task. intros Hh.
  assert (r ∈ filter (fun r => SqliteService.id r = k /\ SqliteService.owned_by u r)
                (SqliteService.rows d)) as Hin.
  { destruct (filter _ _) as [|x l]; [done|]. injection Hh as ->. apply list_elem_of_here. }
  apply list_elem_of_filter in Hin as [[? ?] ?]. done.
Qed.

Lemma sqlite_find_none (k u : Z) (d : SqliteService.db) :
  Forall (fun r => SqliteService.id r = k -> SqliteService.user_id r <> Some u)
         (SqliteService.rows d) ->
  SqliteService.find_task k u d = None.
Proof.
  intros Hall. destruct (SqliteService.find_task k u d) as [r|] eqn:Hf; [|done].
  apply sqlite_find_in in Hf as (Hin & Hid & Hu).
  rewrite Forall_forall in Hall. by destruct (Hall r Hin Hid).
Qed.

Lemma sqlite_find_updated (k u : Z) (f : SqliteService.row -> SqliteService.row) rows n n' :
  (forall r, SqliteService.id (f r) = SqliteService.id r /\
             SqliteService.user_id (f r) = SqliteService.user_id r) ->
  SqliteService.find_task k u (SqliteService.mk_db (f <$> rows) n)
  = f <$> SqliteService.find_task k u (SqliteService.mk_db rows n').
Proof.
  intros Hf. unfold SqliteService.find_task. cbn [SqliteService.rows].
  induction rows as [|r l IH]; [done|].
  rewrite fmap_cons.
  destruct (decide (SqliteService.id r = k /\ SqliteService.owned_by u r)) as [Hr|Hr].
  - rewrite !filter_cons_True; [done | done |].
    unfold SqliteService.owned_by in *. destruct (Hf r) as [-> ->]. done.
  - rewrite !filter_cons_False; [exact IH | done |].
    unfold SqliteService.owned_by in *. destruct (Hf r) as [-> ->]. done.
Qed.

(** X22.  [PUT /api/tasks/:id] merges: on a task of the caller whose
    columns hold what the service writes, and with a body whose fields are
    text (an integer for [priority]) where given, every field the body
    gives replaces the column, every field it leaves out keeps the stored
    value, [updated_at] becomes the current time, and the id, the owner and
    [created_at] stay.  No other row changes, and the answer is 200 with
    the merged task. *)
Theorem sqlite_put_merges {E : Engine} {D : SqliteService.Driver}
    (now : string) (u : Z) (param : string) (body : obj) (d : SqliteService.db)
    (k : Z) (r : SqliteService.row) :
  ToNumber (JStr param) = Int k -> k <> 0 ->
  SqliteService.find_task k u d = Some r ->
  plain_row r -> fields_ok body ->
  SqliteService.put_task now (Some u) param body d
  = (SqliteService.mk_db
       ((fun r0 => if decide (SqliteService.id r0 = k /\ SqliteService.owned_by u r0)
                   then merged now r body r0 else r0) <$> SqliteService.rows d)
       (SqliteService.next_id d),
     Json (mk_response 200 (PTask (SqliteService.to_obj (merged now r body r))))).
Proof.
  intros Hnum Hk Hfind Hplain Hbody.
  destruct Hplain as ((ti & Hti) & Hde & Har & (st & Hst) & (bu & Hbu) & (pr & Hpr) & Hdu).
  destruct Hbody as (Bti & Bde & Bar & Bst & Bbu & Bpr & Bdu).
  assert (SqliteService.put_task now (Some u) param body d
    = match SqliteService.find_task k u d with
      | None => (d, Json (mk_response 404 (PError "not found")))
      | Some existing =>
          let e := SqliteService.to_obj existing in
          match
            ti ← SqliteService.not_null
                   (SqliteService.bind_text (get_default body "title" (get e "title")));
            de ← SqliteService.bind_text
                   (get_default body "description" (get e "description"));
            ar ← SqliteService.bind_text (get_default body "area" (get e "area"));
            st ← SqliteService.not_null
                   (SqliteService.bind_text (get_default body "status" (get e "status")));
            bu ← SqliteService.not_null
                   (SqliteService.bind_text (get_default body "bucket" (get e "bucket")));
            pr ← SqliteService.not_null
                   (SqliteService.bind_int (get_default body "priority" (get e "priority")));
            du ← SqliteService.bind_text (get_default body "due_date" (get e "due_date"));
            Some (fun r : SqliteService.row =>
                    SqliteService.mk_row (SqliteService.id r) ti de ar st bu pr du
                      (SqliteService.created_at r) (SqliteService.SText now)
                      (SqliteService.user_id r))
          with
          | None => (d, SqliteService.server_error)
          | Some upd =>
              let d' :=
                SqliteService.mk_db
                  ((fun r => if decide (SqliteService.id r = k /\ SqliteService.owned_by u r)
                             then upd r else r) <$> SqliteService.rows d)
                  (SqliteService.next_id d) in
              (d', Json (mk_response 200
                           (PTask (default ∅ (SqliteService.to_obj
                                                <$> SqliteService.find_task k u d')))))
          end
      end) as ->.
  { unfold SqliteService.put_task. rewrite Hnum. by destruct k. }
  rewrite Hfind. cbv zeta.
  destruct (sqlite_row_fields r) as (-> & -> & -> & -> & -> & -> & ->).
  rewrite Hti, Hst, Hbu, Hpr. cbn [SqliteService.to_js].
  rewrite (sqlite_bind_text_merge_nn body "title" ti Bti).
  rewrite (sqlite_bind_text_merge body "description" _ Bde Hde).
  rewrite (sqlite_bind_text_merge body "area" _ Bar Har).
  rewrite (sqlite_bind_text_merge_nn body "status" st Bst).
  rewrite (sqlite_bind_text_merge_nn body "bucket" bu Bbu).
  rewrite (sqlite_bind_int_merge_nn body "priority" pr Bpr).
  rewrite (sqlite_bind_text_merge body "due_date" _ Bdu Hdu).
  cbn [mbind option_bind].
  unfold merged. rewrite Hti, Hst, Hbu, Hpr.
  match goal with
  | |- context [SqliteService.mk_db (?g <$> _) _] => set (f := g)
  end.
  rewrite (sqlite_find_updated k u f (SqliteService.rows d) _ (SqliteService.next_id d)).
  - replace (SqliteService.mk_db (SqliteService.rows d) (SqliteService.next_id d))
      with d by (by destruct d).
    rewrite Hfind. cbn [fmap option_fmap option_map default].
    apply sqlite_find_in in Hfind as (_ & Hid & Hu).
    unfold f. by rewrite decide_True.
  - intros r0. unfold f. by destruct (decide _).
Qed.

(** Ann moves her task to "today": the other columns stay. *)
Lemma sqlite_put_merges_witness :
  (@SqliteService.put_task sample_engine sample_driver "2024-02-01T00:00:00.000Z"
     (Some 10) "1" {["bucket" := JStr "today"]} shared_table).2
  = Json (mk_response 200
            (PTask (SqliteService.to_obj
                      (SqliteService.mk_row 1 (SqliteService.SText "renew passport")
                         (SqliteService.SText "") (SqliteService.SText "")
                         (SqliteService.SText "todo") (SqliteService.SText "today")
                         (SqliteService.SInt 2) SqliteService.SNull
                         (SqliteService.SText "2024-01-01T10:00:00.000Z")
                         (SqliteService.SText "2024-02-01T00:00:00.000Z") (Some 10))))).
Proof.
  rewrite (sqlite_put_merges (E:=sample_engine) (D:=sample_driver)
             "2024-02-01T00:00:00.000Z" 10 "1" {["bucket" := JStr "today"]}
             shared_table 1 ann_task).
  - reflexivity.
  - reflexivity.
  - lia.
  - reflexivity.
  - unfold plain_row, ann_task; cbn; repeat split; eauto.
  - unfold fields_ok, text_field, int_field.
    repeat split; try (left; reflexivity). right. by exists "today".
Defined.

(** X23.  [POST /api/tasks] with a non-empty text title stores one new row
    for the caller, under the next id: each field the body gives is stored,
    each field it leaves out takes its default (description and area "",
    status "todo", bucket "later", priority 3, no due date), and both time
    stamps are the current time.  The answer is 201 with that row. *)
Theorem sqlite_create_fills_defaults {D : SqliteService.Driver}
    (now : string) (u : Z) (body : obj) (d : SqliteService.db) (s : string) :
  get body "title" = JStr s -> s <> "" -> fields_ok body ->
  let blank := blank_task now u (SqliteService.next_id d) in
  SqliteService.post_task now (Some u) body d
  = (SqliteService.mk_db (SqliteService.rows d ++ [merged now blank body blank])
                         (SqliteService.next_id d + 1),
     Json (mk_response 201 (PTask (SqliteService.to_obj (merged now blank body blank))))).
Proof.
  intros Htitle Hs (Bti & Bde & Bar & Bst & Bbu & Bpr & Bdu) blank.
  unfold SqliteService.post_task. rewrite Htitle.
  cbn [truthy is_string negb orb].
  rewrite (proj2 (String.eqb_neq s "")) by done. cbn [negb orb].
  rewrite SqliteService.bind_text_str. cbn [SqliteService.not_null].
  pose proof (sqlite_bind_text_merge body "description" (SqliteService.SText "") Bde I) as H1.
  pose proof (sqlite_bind_text_merge body "area" (SqliteService.SText "") Bar I) as H2.
  pose proof (sqlite_bind_text_merge body "due_date" SqliteService.SNull Bdu I) as H3.
  cbn [SqliteService.to_js] in H1, H2, H3.
  rewrite H1, H2, H3.
  rewrite (sqlite_bind_text_merge_nn body "status" "todo" Bst).
  rewrite (sqlite_bind_text_merge_nn body "bucket" "later" Bbu).
  rewrite (sqlite_bind_int_merge_nn body "priority" 3 Bpr).
  cbn [mbind option_bind].
  unfold merged, blank, blank_task. cbn [SqliteService.id SqliteService.title
    SqliteService.description SqliteService.area SqliteService.status SqliteService.bucket
    SqliteService.priority SqliteService.due_date SqliteService.created_at
    SqliteService.user_id].
  rewrite Htitle. reflexivity.
Qed.

(** Bob adds a task with only a title. *)
Lemma sqlite_create_fills_defaults_witness :
  (@SqliteService.post_task sample_driver "2024-02-01T00:00:00.000Z" (Some 20)
     {["title" := JStr "water plants"]} shared_table).2
  = Json (mk_response 201
            (PTask (SqliteService.to_obj
                      (SqliteService.mk_row 3 (SqliteService.SText "water plants")
                         (SqliteService.SText "") (SqliteService.SText "")
                         (SqliteService.SText "todo") (SqliteService.SText "later")
                         (SqliteService.SInt 3) SqliteService.SNull
                         (SqliteService.SText "2024-02-01T00:00:00.000Z")
                         (SqliteService.SText "2024-02-01T00:00:00.000Z") (Some 20))))).
Proof.
  rewrite (sqlite_create_fills_defaults (D:=sample_driver) "2024-02-01T00:00:00.000Z" 20
             {["title" := JStr "water plants"]} shared_table "water plants").
  - reflexivity.
  - reflexivity.
  - discriminate.
  - unfold fields_ok, text_field, int_field.
    repeat split; try (left; reflexivity). right. by exists "water plants".
Defined.

(** X24.  A task that [POST /api/tasks] reports as created is in the
    caller's list from then on, and the list has grown by exactly one. *)
Theorem sqlite_created_task_is_listed {D : SqliteService.Driver}
    (now : string) (u : Z) (body : obj) (d d' : SqliteService.db) (t : obj) :
  SqliteService.post_task now (Some u) body d = (d', Json (mk_response 201 (PTask t))) ->
  exists before after,
    SqliteService.get_tasks (Some u) d = Json (mk_response 200 (PTasks before)) /\
    SqliteService.get_tasks (Some u) d' = Json (mk_response 200 (PTasks after)) /\
    t ∈ after /\ length after = S (length before).
Proof.
  intros Hpost.
  destruct (sqlite_post_writes now u body d) as [(c & msg & Hno)|(r & Hu & _ & Hyes)].
  { rewrite Hno in Hpost. discriminate. }
  rewrite Hyes in Hpost. injection Hpost as <- <-.
  eexists _, _. split; [reflexivity|]. split; [reflexivity|].
  cbn [SqliteService.rows].
  rewrite filter_app, (filter_cons_True _ r), filter_nil by done.
  split.
  - apply list_elem_of_fmap. exists r. split; [done|].
    rewrite <- (sqlite_order_by_perm SqliteService.list_order).
    apply elem_of_app. right. apply list_elem_of_here.
  - rewrite !length_fmap.
    rewrite <- (Permutation_length (sqlite_order_by_perm SqliteService.list_order _)).
    rewrite <- (Permutation_length (sqlite_order_by_perm SqliteService.list_order _)).
    rewrite length_app. simpl. lia.
Qed.

(** Ann adds a second task and then lists two. *)
Lemma sqlite_created_task_is_listed_witness :
  let now := "2024-02-01T00:00:00.000Z" in
  let body : obj := {["title" := JStr "book flights"]} in
  let made := merged now (blank_task now 10 3) body (blank_task now 10 3) in
  let d' := SqliteService.mk_db [ann_task; bob_task; made] 4 in
  exists before after,
    SqliteService.get_tasks (Some 10) shared_table
      = Json (mk_response 200 (PTasks before)) /\
    SqliteService.get_tasks (Some 10) d' = Json (mk_response 200 (PTasks after)) /\
    SqliteService.to_obj made ∈ after /\ length after = S (length before).
Proof.
  intros now body made d'.
  apply (sqlite_created_task_is_listed (D:=sample_driver) now 10 body shared_table d'
           (SqliteService.to_obj made)).
  vm_compute. reflexivity.
Defined.

(** X25.  A task id that belongs to another user, or to nobody, is out of
    reach: [PUT /api/tasks/:id] answers 404 and [DELETE /api/tasks/:id]
    answers 204, and neither changes the table. *)
Theorem sqlite_foreign_task_is_out_of_reach {E : Engine} {D : SqliteService.Driver}
    (now : string) (u : Z) (param : string) (body : obj) (d : SqliteService.db) (k : Z) :
  ToNumber (JStr param) = Int k -> k <> 0 ->
  Forall (fun r => SqliteService.id r = k -> SqliteService.user_id r <> Some u)
         (SqliteService.rows d) ->
  SqliteService.put_task now (Some u) param body d
    = (d, Json (mk_response 404 (PError "not found"))) /\
  SqliteService.delete_task (Some u) param d = (d, NoContent).
Proof.
  intros Hnum Hk Hall. split.
  - unfold SqliteService.put_task. rewrite Hnum.
    destruct k as [|p|p]; [done| |]; by rewrite (sqlite_find_none _ u d Hall).
  - unfold SqliteService.delete_task. rewrite Hnum.
    assert (filter (fun r => ~ (SqliteService.id r = k /\ SqliteService.owned_by u r))
              (SqliteService.rows d) = SqliteService.rows d) as Hsame.
    { clear Hnum. induction Hall as [|r l Hr Hl IH]; [done|].
      rewrite filter_cons_True; [by rewrite IH|].
      unfold SqliteService.owned_by. intros [? ?]. by apply Hr. }
    destruct k as [|p|p]; [done| |]; rewrite Hsame; by destruct d.
Qed.

(** Bob tries Ann's task 1. *)
Lemma sqlite_foreign_task_is_out_of_reach_witness :
  @SqliteService.put_task sample_engine sample_driver "2024-02-01T00:00:00.000Z"
     (Some 20) "1" {["title" := JStr "mine now"]} shared_table
    = (shared_table, Json (mk_response 404 (PError "not found"))) /\
  @SqliteService.delete_task sample_engine (Some 20) "1" shared_table
    = (shared_table, NoContent).
Proof.
  apply (sqlite_foreign_task_is_out_of_reach (E:=sample_engine) (D:=sample_driver)
           "2024-02-01T00:00:00.000Z" 20 "1" {["title" := JStr "mine now"]}
           shared_table 1).
  - reflexivity.
  - lia.
  - unfold shared_table, ann_task, bob_task. cbn [SqliteService.rows].
    repeat constructor; cbn; intros; congruence.
Defined.

(** X26.  [DELETE /api/tasks/:id] is final and touches one id only: it
    answers 204, every row with another id stays, the caller has no task
    with that id afterwards, and a later [PUT] with the id answers 404
    without changing the table. *)
Theorem sqlite_delete_is_final {E : Engine} {D : SqliteService.Driver}
    (now : string) (u : Z) (param : string) (body : obj) (d : SqliteService.db) (k : Z) :
  ToNumber (JStr param) = Int k -> k <> 0 ->
  let d' := (SqliteService.delete_task (Some u) param d).1 in
  (SqliteService.delete_task (Some u) param d).2 = NoContent /\
  filter (fun r => SqliteService.id r <> k) (SqliteService.rows d')
    = filter (fun r => SqliteService.id r <> k) (SqliteService.rows d) /\
  Forall (fun r => SqliteService.id r <> k)
         (filter (SqliteService.owned_by u) (SqliteService.rows d')) /\
  SqliteService.put_task now (Some u) param body d'
    = (d', Json (mk_response 404 (PError "not found"))).
Proof.
  intros Hnum Hk d'.
  assert (SqliteService.delete_task (Some u) param d
          = (SqliteService.mk_db
               (filter (fun r => ~ (SqliteService.id r = k /\ SqliteService.owned_by u r))
                       (SqliteService.rows d))
               (SqliteService.next_id d), NoContent)) as Hdel.
  { unfold SqliteService.delete_task. rewrite Hnum. by destruct k. }
  subst d'. rewrite Hdel. cbn [fst snd SqliteService.rows].
  assert (Forall (fun r => SqliteService.id r = k -> SqliteService.user_id r <> Some u)
            (filter (fun r => ~ (SqliteService.id r = k /\ SqliteService.owned_by u r))
                    (SqliteService.rows d))) as Hgone.
  { apply Forall_forall. intros r Hr Hid Hu.
    apply list_elem_of_filter in Hr as [Hr _]. by apply Hr. }
  split; [done|]. split; [|split].
  - apply sqlite_filter_filter. intros r Hr [? _]. done.
  - apply Forall_forall. intros r Hr Hid.
    apply list_elem_of_filter in Hr as [Hu Hr].
    rewrite Forall_forall in Hgone. by apply (Hgone r Hr Hid).
  - unfold SqliteService.put_task. rewrite Hnum.
    destruct k as [|p|p]; [done| |]; by rewrite sqlite_find_none.
Qed.

(** Ann deletes her task 1 and then tries to edit it. *)
Lemma sqlite_delete_is_final_witness :
  let d' := (@SqliteService.delete_task sample_engine (Some 10) "1" shared_table).1 in
  SqliteService.rows d' = [bob_task] /\
  @SqliteService.put_task sample_engine sample_driver "2024-02-01T00:00:00.000Z"
     (Some 10) "1" {["title" := JStr "again"]} d'
    = (d', Json (mk_response 404 (PError "not found"))).
Proof.
  split; [reflexivity|].
  apply (sqlite_delete_is_final (E:=sample_engine) (D:=sample_driver)
           "2024-02-01T00:00:00.000Z" 10 "1" {["title" := JStr "again"]} shared_table 1);
    [reflexivity | lia].
Defined.
